(** * LogPrompt: the model cache, the HTTP endpoints and the bulk downloader

    A shallow embedding of [main.py] and [download_models.py].

    The transformer runtime (tokenizer/model loading, pipeline construction,
    inference, tokenisation) and the file system are external to the
    repository; they are taken as an [Engine] whose operations act on an
    abstract [World].  Python code that threads the process-wide cache, the
    engine and exceptions through calls is written in a small state and
    exception monad. *)

From Stdlib Require Import ZArith Ascii.
From stdpp Require Import base strings gmap list pretty.

Open Scope string_scope.

(** ** Python exceptions *)

(** [PyException cls msg] stands for an instance of a subclass of [Exception]
    other than fastapi's [HTTPException] ([ValueError], [KeyError],
    [OSError], ...), with [str(e) = msg].  [KeyboardInterrupt] derives from
    [BaseException] only, so [except Exception] does not catch it; neither
    does it catch the [SystemExit] that [sys.exit] raises. *)
Inductive exn : Type :=
| PyException (cls msg : string)
| HTTPException (status_code : nat) (detail : string)
| KeyboardInterrupt
| SystemExit (code : nat).

Definition isinstance_Exception (e : exn) : bool :=
  match e with
  | PyException _ _ | HTTPException _ _ => true
  | KeyboardInterrupt | SystemExit _ => false
  end.

Definition isinstance_HTTPException (e : exn) : bool :=
  match e with
  | HTTPException _ _ => true
  | _ => false
  end.

Definition isinstance_KeyboardInterrupt (e : exn) : bool :=
  match e with
  | KeyboardInterrupt => true
  | _ => false
  end.

(** [str(e)].  For [HTTPException] this is starlette's
    [f"{self.status_code}: {self.detail}"]. *)
Definition str_exn (e : exn) : string :=
  match e with
  | PyException _ msg => msg
  | HTTPException c d => pretty c ++ ": " ++ d
  | KeyboardInterrupt => ""
  | SystemExit c => pretty c
  end.

(** ** State and exception monad *)

Inductive res (A : Type) : Type :=
| Ok (a : A)
| Raise (e : exn).
Arguments Ok {A} a.
Arguments Raise {A} e.

Definition M (S A : Type) : Type := S → res A * S.

Definition ret {S A} (a : A) : M S A := λ s, (Ok a, s).
Definition raise {S A} (e : exn) : M S A := λ s, (Raise e, s).
Definition bind {S A B} (m : M S A) (k : A → M S B) : M S B :=
  λ s, match m s with
       | (Ok a, s') => k a s'
       | (Raise e, s') => (Raise e, s')
       end.

Notation "x <- m ; k" := (bind m (λ x, k))
  (at level 20, m at level 100, k at level 200, only parsing).
Notation "' pat <- m ; k" := (bind m (λ x, match x with pat => k end))
  (at level 20, pat pattern, m at level 100, k at level 200, only parsing).
Notation "m ;; k" := (bind m (λ _, k))
  (at level 100, k at level 200, only parsing, right associativity).

(** The [except] clauses of a [try] statement, tried in order; each is a
    class test and a handler. *)
Definition clause (S A : Type) : Type := ((exn → bool) * (exn → M S A))%type.

Fixpoint select_clause {S A} (cs : list (clause S A)) (e : exn)
  : option (M S A) :=
  match cs with
  | [] => None
  | (test, h) :: cs' => if test e then Some (h e) else select_clause cs' e
  end.

Definition try_except {S A} (body : M S A) (cs : list (clause S A)) : M S A :=
  λ s, match body s with
       | (Ok a, s') => (Ok a, s')
       | (Raise e, s') =>
           match select_clause cs e with
           | Some h => h s'
           | None => (Raise e, s')
           end
       end.

(** ** Python values used by the code

    A [str] is a [string], its characters the elements; [len] is
    [String.length]. *)

(** [repr] of a [str] without quotes or escapes, and of a list of them. *)
Definition py_repr_str (s : string) : string := "'" ++ s ++ "'".

Fixpoint py_join (sep : string) (l : list string) : string :=
  match l with
  | [] => ""
  | [x] => x
  | x :: l' => x ++ sep ++ py_join sep l'
  end.

Definition py_repr_list (l : list string) : string :=
  "[" ++ py_join ", " (py_repr_str <$> l) ++ "]".

(** A dict literal keeps its insertion order: an association list. *)
Definition dict_keys {V} (d : list (string * V)) : list string := d.*1.

Definition dict_contains {V} (k : string) (d : list (string * V)) : bool :=
  bool_decide (k ∈ dict_keys d).

Fixpoint dict_get {V} (k : string) (d : list (string * V)) : option V :=
  match d with
  | [] => None
  | (k', v) :: d' => if decide (k = k') then Some v else dict_get k d'
  end.

(** [d[k]], raising [KeyError] when the key is absent. *)
Definition dict_getitem {S V} (d : list (string * V)) (k : string) : M S V :=
  match dict_get k d with
  | Some v => ret v
  | None => raise (PyException "KeyError" (py_repr_str k))
  end.

Definition map_getitem {S V} (d : gmap string V) (k : string) : M S V :=
  match d !! k with
  | Some v => ret v
  | None => raise (PyException "KeyError" (py_repr_str k))
  end.

(** [os.path.join(a, b)] on POSIX. *)
Fixpoint ends_with_slash (s : string) : bool :=
  match s with
  | EmptyString => false
  | String c EmptyString => bool_decide (c = "/"%char)
  | String _ s' => ends_with_slash s'
  end.

Definition starts_with_slash (s : string) : bool :=
  match s with
  | String c _ => bool_decide (c = "/"%char)
  | EmptyString => false
  end.

Definition os_path_join (a b : string) : string :=
  if starts_with_slash b then b
  else if bool_decide (a = "") || ends_with_slash a then a ++ b
  else a ++ "/" ++ b.

(** ** The external engine *)

(** What a call into the runtime does: return, raise an [Exception], or be
    cut short by the user's interrupt. *)
Inductive outcome (A : Type) : Type :=
| Returned (a : A)
| Failed (cls msg : string)
| Interrupted.
Arguments Returned {A} a.
Arguments Failed {A} cls msg.
Arguments Interrupted {A}.

Definition res_of_outcome {A} (o : outcome A) : res A :=
  match o with
  | Returned a => Ok a
  | Failed cls msg => Raise (PyException cls msg)
  | Interrupted => Raise KeyboardInterrupt
  end.

(** A Python value built of numbers and lists, which is what a pipeline
    hands back ([tensor.tolist()]): a number, or a list of such values. *)
#[local] Set Warnings "-register-all".
Inductive nested (A : Type) : Type :=
| Scalar (a : A)
| Nest (l : list (nested A)).
Arguments Scalar {A} a.
Arguments Nest {A} l.

(** The check pydantic makes of such a value against [List[List[float]]]:
    a list, each element a list, each element of those a number. *)
Definition as_float {A} (v : nested A) : option A :=
  match v with
  | Scalar a => Some a
  | Nest _ => None
  end.

Definition as_float_list {A} (v : nested A) : option (list A) :=
  match v with
  | Nest l => mapM as_float l
  | Scalar _ => None
  end.

Definition validate_embeddings {A} (v : nested A) : option (list (list A)) :=
  match v with
  | Nest l => mapM as_float_list l
  | Scalar _ => None
  end.

(** [AutoTokenizer.from_pretrained(name_or_path, cache_dir=.., local_files_only=..)],
    [AutoModel.from_pretrained(..)], [pipeline(task, model=.., tokenizer=..,
    device=..)], [torch.cuda.is_available()], calling a pipeline on a text,
    [tokenizer.tokenize(text)], [os.path.exists] and [os.makedirs];
    [validation_error] is [str] of the [ValidationError] pydantic raises
    for a value that fails the check of [embeddings]. *)
Record Engine : Type := {
  World : Type;
  Tokenizer : Type;
  Model : Type;
  Pipeline : Type;
  Num : Type;
  AutoTokenizer_from_pretrained :
    string → option string → bool → World → outcome Tokenizer * World;
  AutoModel_from_pretrained :
    string → option string → bool → World → outcome Model * World;
  pipeline : string → Model → Tokenizer → Z → World → outcome Pipeline * World;
  cuda_is_available : World → bool;
  pipeline_call :
    Pipeline → string → World → outcome (nested Num) * World;
  validation_error : nested Num → string;
  tokenizer_tokenize :
    Tokenizer → string → World → outcome (list string) * World;
  os_path_exists : string → World → bool;
  os_makedirs : string → World → outcome unit * World;
}.

(** The calls made into the engine, in order (what a call-count mock of the
    load path observes). *)
Inductive call : Type :=
| CallTokenizerFromPretrained (name_or_path : string)
    (cache_dir : option string) (local_files_only : bool)
| CallModelFromPretrained (name_or_path : string)
    (cache_dir : option string) (local_files_only : bool)
| CallPipeline (task : string) (device : Z)
| CallPipelineRun (text : string)
| CallTokenize (text : string)
| CallMakedirs (path : string).

(** The registry and the storage directory (the same in both programs). *)
Definition SUPPORTED_MODELS : list (string * string) :=
  [ ("bert-base-uncased", "bert-base-uncased");
    ("bert-large-uncased", "bert-large-uncased");
    ("roberta-base", "roberta-base");
    ("roberta-large", "roberta-large");
    ("albert-base-v1", "albert-base-v1");
    ("albert-base-v2", "albert-base-v2") ].

Definition MODELS_DIR : string := "./models".

Section WithEngine.
Context (E : Engine).

(** The part of a process state the engine acts on. *)
Record Sys : Type := mkSys {
  world : World E;
  calls : list call;
}.

Definition engine_call {A} (c : call)
    (f : World E → outcome A * World E) : M Sys A :=
  λ y, let '(o, w') := f (world y) in
       (res_of_outcome o, {| world := w'; calls := calls y ++ [c] |}).

Definition torch_cuda_is_available : M Sys bool :=
  λ y, (Ok (cuda_is_available E (world y)), y).

Definition path_exists (p : string) : M Sys bool :=
  λ y, (Ok (os_path_exists E p (world y)), y).

(** [device=0 if torch.cuda.is_available() else -1] *)
Definition select_device (cuda : bool) : Z := if cuda then 0%Z else (-1)%Z.

(** The three steps both programs perform for a load: tokenizer, model,
    pipeline on the accelerator when there is one. *)
Definition load_steps (name_or_path : string) (cache_dir : option string)
    (local_files_only : bool)
  : M Sys (Tokenizer E * Model E * Pipeline E) :=
  tokenizer <- engine_call
    (CallTokenizerFromPretrained name_or_path cache_dir local_files_only)
    (AutoTokenizer_from_pretrained E name_or_path cache_dir local_files_only);
  model <- engine_call
    (CallModelFromPretrained name_or_path cache_dir local_files_only)
    (AutoModel_from_pretrained E name_or_path cache_dir local_files_only);
  cuda <- torch_cuda_is_available;
  let device := select_device cuda in
  pipe <- engine_call (CallPipeline "feature-extraction" device)
    (pipeline E "feature-extraction" model tokenizer device);
  ret (tokenizer, model, pipe).

(** The values of a cache entry: [Dict[str, Any]]. *)
Inductive Handle : Type :=
| HTokenizer (t : Tokenizer E)
| HModel (m : Model E)
| HPipeline (p : Pipeline E).

End WithEngine.

Arguments world {E} _.
Arguments calls {E} _.
Arguments mkSys {E} _ _.
Arguments HTokenizer {E} t.
Arguments HModel {E} m.
Arguments HPipeline {E} p.
Arguments engine_call {E A} c f.
Arguments torch_cuda_is_available {E}.
Arguments path_exists {E} p.
Arguments load_steps {E} name_or_path cache_dir local_files_only.

(** ** main.py *)

Module Main.
Section WithEngine.
Context {E : Engine}.

(** [model_cache: Dict[str, Dict[str, Any]]], together with the engine's
    side of the process. *)
Record State : Type := mkState {
  model_cache : gmap string (gmap string (Handle E));
  sys : Sys E;
}.

Definition lift {A} (m : M (Sys E) A) : M State A :=
  λ s, let '(r, y) := m (sys s) in
       (r, {| model_cache := model_cache s; sys := y |}).

(** [name in model_cache], [model_cache[name]] and
    [model_cache[name] = entry]. *)
Definition cache_contains (name : string) : M State bool :=
  λ s, (Ok (bool_decide (is_Some (model_cache s !! name))), s).

Definition cache_getitem (name : string) : M State (gmap string (Handle E)) :=
  λ s, map_getitem (model_cache s) name s.

Definition cache_setitem (name : string) (entry : gmap string (Handle E))
  : M State unit :=
  λ s, (Ok (), {| model_cache := <[name := entry]> (model_cache s);
                  sys := sys s |}).

Definition new_entry (tokenizer : Tokenizer E) (model : Model E)
    (pipe : Pipeline E) : gmap string (Handle E) :=
  <["tokenizer" := HTokenizer tokenizer]>
    (<["model" := HModel model]>
      (<["pipeline" := HPipeline pipe]> ∅)).

(** main.py, lines 99-184.  The progress bar and the logger have no effect
    on the result and are left out. *)
Definition download_and_cache_model (model_name : string)
  : M State (gmap string (Handle E)) :=
  hit <- cache_contains model_name;
  if hit then cache_getitem model_name
  else if negb (dict_contains model_name SUPPORTED_MODELS) then
    raise (PyException "ValueError"
             ("Model " ++ model_name ++ " not supported"))
  else
    model_id <- dict_getitem SUPPORTED_MODELS model_name;
    let cache_dir := os_path_join MODELS_DIR model_name in
    try_except
      ('(tokenizer, model, pipe) <-
         try_except
           (lift (load_steps cache_dir None true))
           [ (isinstance_Exception,
              λ _, lift (load_steps model_id (Some cache_dir) false)) ];
       cache_setitem model_name (new_entry tokenizer model pipe);;
       cache_getitem model_name)
      [ (isinstance_Exception, λ e, raise e) ].

(** [ModelRequest] and [ModelResponse]. *)
Record ModelRequest : Type := mkRequest {
  req_text : string;
  req_model_name : string;
  req_task : string;
}.

Inductive pyval : Type :=
| VInt (n : nat)
| VStrList (l : list string).

Record ModelResponse : Type := mkResponse {
  model_name : string;
  text : string;
  task : string;
  embeddings : option (list (list (Num E)));
  features : option (gmap string pyval);
  error : option string;
}.

(** [pipeline_obj(text)] and [tokenizer.tokenize(text)] on a value taken
    out of a cache entry. *)
Definition call_handle (h : Handle E) (txt : string)
  : M State (nested (Num E)) :=
  match h with
  | HPipeline p => lift (engine_call (CallPipelineRun txt) (pipeline_call E p txt))
  | _ => raise (PyException "TypeError" "object is not callable")
  end.

Definition tokenize_handle (h : Handle E) (txt : string)
  : M State (list string) :=
  match h with
  | HTokenizer t => lift (engine_call (CallTokenize txt) (tokenizer_tokenize E t txt))
  | _ => raise (PyException "AttributeError" "object has no attribute 'tokenize'")
  end.

Definition features_dict (tokens : list string) (txt : string)
  : gmap string pyval :=
  <["num_tokens" := VInt (length tokens)]>
    (<["tokens" := VStrList (take 50 tokens)]>
      (<["text_length" := VInt (String.length txt)]> ∅)).

Definition unsupported_detail (name : string) : string :=
  "Model " ++ name ++ " not supported. Available models: "
    ++ py_repr_list (dict_keys SUPPORTED_MODELS).

(** [ModelResponse(model_name=.., text=.., task=.., embeddings=value)],
    lines 227-232: the model class checks [value] against
    [Optional[List[List[float]]]] and raises [ValidationError] when it is
    anything else. *)
Definition response_with_embeddings (request : ModelRequest)
    (value : nested (Num E)) : M State ModelResponse :=
  match validate_embeddings value with
  | Some rows =>
      ret (mkResponse (req_model_name request) (req_text request)
             (req_task request) (Some rows) None None)
  | None => raise (PyException "ValidationError" (validation_error E value))
  end.

(** The [try] block of [predict], lines 210-247. *)
Definition predict_body (request : ModelRequest) : M State ModelResponse :=
  (if negb (dict_contains (req_model_name request) SUPPORTED_MODELS) then
     raise (HTTPException 400 (unsupported_detail (req_model_name request)))
   else ret ());;
  model_data <- download_and_cache_model (req_model_name request);
  pipeline_obj <- map_getitem model_data "pipeline";
  if bool_decide (req_task request = "feature-extraction") then
    embeddings <- call_handle pipeline_obj (req_text request);
    response_with_embeddings request embeddings
  else
    tokenizer <- map_getitem model_data "tokenizer";
    tokens <- tokenize_handle tokenizer (req_text request);
    ret (mkResponse (req_model_name request) (req_text request)
           (req_task request) None
           (Some (features_dict tokens (req_text request))) None).

Definition error_response (request : ModelRequest) (e : exn) : ModelResponse :=
  mkResponse (req_model_name request) (req_text request) (req_task request)
    None None (Some (str_exn e)).

(** main.py, lines 206-260. *)
Definition predict (request : ModelRequest) : M State ModelResponse :=
  try_except (predict_body request)
    [ (isinstance_HTTPException, λ e, raise e);
      (isinstance_Exception, λ e, ret (error_response request e)) ].

(** main.py, lines 263-277. *)
Definition load_model (name : string) : M State string :=
  try_except
    ((if negb (dict_contains name SUPPORTED_MODELS) then
        raise (HTTPException 400 ("Model " ++ name ++ " not supported"))
      else ret ());;
     download_and_cache_model name;;
     ret ("Model " ++ name ++ " loaded successfully"))
    [ (isinstance_Exception, λ e, raise (HTTPException 500 (str_exn e))) ].

(** main.py, lines 187-203 and 280-287.  [list(model_cache.keys())] is
    given up to order. *)
Record RootInfo : Type := mkRootInfo {
  root_message : string;
  root_version : string;
  root_supported_models : list string;
}.

Definition root : M State RootInfo :=
  ret (mkRootInfo "LogPrompt - Transformer Models API" "1.0.0"
         (dict_keys SUPPORTED_MODELS)).

Record ModelsInfo : Type := mkModelsInfo {
  supported_models : list string;
  loaded_models : list string;
}.

Definition list_models : M State ModelsInfo :=
  λ s, (Ok (mkModelsInfo (dict_keys SUPPORTED_MODELS)
              (map_to_list (model_cache s)).*1), s).

Record Health : Type := mkHealth {
  status : string;
  models_loaded : nat;
  cuda_available : bool;
}.

Definition health_check : M State Health :=
  cuda <- lift torch_cuda_is_available;
  λ s, (Ok (mkHealth "healthy" (size (model_cache s)) cuda), s).

(** What the framework sends for a handler's result: 200 when it returns,
    the [HTTPException]'s status when it raises one, 500 for any other
    [Exception]. *)
Definition http_status {A} (r : res A) : option nat :=
  match r with
  | Ok _ => Some 200
  | Raise (HTTPException c _) => Some c
  | Raise (PyException _ _) => Some 500
  | Raise KeyboardInterrupt | Raise (SystemExit _) => None
  end.

(** The requests of the service and the process as a sequence of them. *)
Inductive Request : Type :=
| GetRoot
| GetModels
| GetHealth
| PostPredict (request : ModelRequest)
| PostLoadModel (name : string).

Definition handle (r : Request) (s : State) : State :=
  match r with
  | GetRoot => (root s).2
  | GetModels => (list_models s).2
  | GetHealth => (health_check s).2
  | PostPredict request => (predict request s).2
  | PostLoadModel name => (load_model name s).2
  end.

Definition serve (rs : list Request) (s : State) : State :=
  foldl (λ s r, handle r s) s rs.

Definition initial (w : World E) : State :=
  {| model_cache := ∅; sys := {| world := w; calls := [] |} |}.

End WithEngine.
Arguments State E : clear implicits.
Arguments ModelResponse E : clear implicits.
End Main.

(** ** download_models.py *)

Module DownloadModels.
Section WithEngine.
Context {E : Engine}.

(** What the program prints, each [print] by its payload; the heading of
    lines 94-99 is one item. *)
Inductive line : Type :=
| LBanner (total : nat) (cuda : bool)
| LProcessing (i total : nat) (name : string)
| LRule
| LFailedCount (n : nat)
| LFailedItem (name err : string)
| LSucceededCount (n : nat)
| LAllDownloaded
| LStoredIn (dir : string)
| LStartServer
| LInterrupted.

Record State : Type := mkState {
  stdout : list line;
  sys : Sys E;
}.

Definition lift {A} (m : M (Sys E) A) : M State A :=
  λ s, let '(r, y) := m (sys s) in (r, {| stdout := stdout s; sys := y |}).

Definition print (l : line) : M State unit :=
  λ s, (Ok (), {| stdout := stdout s ++ [l]; sys := sys s |}).

Fixpoint print_all (ls : list line) : M State unit :=
  match ls with
  | [] => ret ()
  | l :: ls' => print l;; print_all ls'
  end.

(** download_models.py, lines 33-37. *)
Definition ensure_models_directory : M State unit :=
  present <- lift (path_exists MODELS_DIR);
  if negb present then
    lift (engine_call (CallMakedirs MODELS_DIR) (os_makedirs E MODELS_DIR))
  else ret ().

Definition handles (tokenizer : Tokenizer E) (model : Model E)
    (pipe : Pipeline E) : gmap string (Handle E) :=
  <["tokenizer" := HTokenizer tokenizer]>
    (<["model" := HModel model]>
      (<["pipeline" := HPipeline pipe]> ∅)).

(** download_models.py, lines 40-87: a remote load whatever is on disk. *)
Definition download_model (model_name model_id : string)
  : M State (gmap string (Handle E)) :=
  let cache_dir := os_path_join MODELS_DIR model_name in
  try_except
    ('(tokenizer, model, pipe) <-
       lift (load_steps model_id (Some cache_dir) false);
     ret (handles tokenizer model pipe))
    [ (isinstance_Exception, λ e, raise e) ].

(** The [for] loop of lines 106-117, [i] counting from 1. *)
Fixpoint download_loop (total_models i : nat) (items : list (string * string))
    (failed_models : list (string * string))
  : M State (list (string * string)) :=
  match items with
  | [] => ret failed_models
  | (model_name, model_id) :: rest =>
      failed_models' <-
        try_except
          (print (LProcessing i total_models model_name);;
           download_model model_name model_id;;
           ret failed_models)
          [ (isinstance_Exception,
             λ e, ret (failed_models ++ [(model_name, str_exn e)])%list) ];
      download_loop total_models (S i) rest failed_models'
  end.

(** Lines 119-129. *)
Definition summary (total_models : nat) (failed_models : list (string * string))
  : list line :=
  ([LRule]
   ++ (match failed_models with
       | [] => [LAllDownloaded]
       | _ :: _ =>
           [LFailedCount (length failed_models)]
           ++ ((λ f, LFailedItem f.1 f.2) <$> failed_models)
           ++ [LSucceededCount (total_models - length failed_models)]
       end)
   ++ [LStoredIn MODELS_DIR; LStartServer])%list.

(** download_models.py, lines 90-129, over the registry's items in the
    order the dict yields them. *)
Definition download_all_models_over (registry : list (string * string))
  : M State unit :=
  ensure_models_directory;;
  cuda <- lift torch_cuda_is_available;
  print (LBanner (length registry) cuda);;
  let total_models := length registry in
  failed_models <- download_loop total_models 1 registry [];
  print_all (summary total_models failed_models).

Definition download_all_models : M State unit :=
  download_all_models_over SUPPORTED_MODELS.

(** download_models.py, lines 132-141. *)
Definition main_over (registry : list (string * string)) : M State unit :=
  try_except (download_all_models_over registry)
    [ (isinstance_KeyboardInterrupt,
       λ _, print LInterrupted;; raise (SystemExit 1));
      (isinstance_Exception, λ _, raise (SystemExit 1)) ].

Definition main : M State unit := main_over SUPPORTED_MODELS.


Definition initial (w : World E) : State :=
  {| stdout := []; sys := {| world := w; calls := [] |} |}.

(** The (name, error) pairs of the models whose forced remote load raises,
    each load starting in the world the previous one left. *)
Fixpoint failures (items : list (string * string)) (y : Sys E)
  : list (string * string) :=
  match items with
  | [] => []
  | (model_name, model_id) :: rest =>
      match load_steps model_id
              (Some (os_path_join MODELS_DIR model_name)) false y with
      | (Ok _, y') => failures rest y'
      | (Raise e, y') => (model_name, str_exn e) :: failures rest y'
      end
  end.

Fixpoint processing_lines (total_models i : nat) (items : list (string * string))
  : list line :=
  match items with
  | [] => []
  | (model_name, _) :: rest =>
      LProcessing i total_models model_name
        :: processing_lines total_models (S i) rest
  end.

End WithEngine.
Arguments State E : clear implicits.
End DownloadModels.

(** ** A test double for the engine

    Files are kept per directory; a local-only load succeeds when the
    directory holds them, a remote load succeeds when the hub can be reached
    and leaves the files in [cache_dir].  Tokens are the characters of the
    text and each token gets a two-component vector. *)

Module Mock.

Record world : Type := mkWorld {
  tokenizer_files : list string;
  model_files : list string;
  online : bool;
  has_cuda : bool;
  dirs : list string;
}.

Definition store (cache_dir : option string) (files : list string)
  : list string :=
  match cache_dir with
  | Some d => d :: files
  | None => files
  end.

Definition tokenizer_from_pretrained (name_or_path : string)
    (cache_dir : option string) (local_files_only : bool) (w : world)
  : outcome string * world :=
  if local_files_only then
    if bool_decide (name_or_path ∈ tokenizer_files w)
    then (Returned name_or_path, w)
    else (Failed "OSError" ("Can't load tokenizer for " ++ py_repr_str name_or_path), w)
  else if online w then
    (Returned name_or_path,
     mkWorld (store cache_dir (tokenizer_files w)) (model_files w)
       (online w) (has_cuda w) (dirs w))
  else (Failed "OSError" "We couldn't connect to the hub", w).

Definition model_from_pretrained (name_or_path : string)
    (cache_dir : option string) (local_files_only : bool) (w : world)
  : outcome string * world :=
  if local_files_only then
    if bool_decide (name_or_path ∈ model_files w)
    then (Returned name_or_path, w)
    else (Failed "OSError" ("Can't load model for " ++ py_repr_str name_or_path), w)
  else if online w then
    (Returned name_or_path,
     mkWorld (tokenizer_files w) (store cache_dir (model_files w))
       (online w) (has_cuda w) (dirs w))
  else (Failed "OSError" "We couldn't connect to the hub", w).

Fixpoint chars (s : string) : list string :=
  match s with
  | EmptyString => []
  | String c s' => String c EmptyString :: chars s'
  end.

Definition engine : Engine := {|
  World := world;
  Tokenizer := string;
  Model := string;
  Pipeline := string;
  Num := Z;
  AutoTokenizer_from_pretrained := tokenizer_from_pretrained;
  AutoModel_from_pretrained := model_from_pretrained;
  pipeline := λ _ model _ _ w, (Returned model, w);
  cuda_is_available := has_cuda;
  pipeline_call := λ _ txt w,
    (Returned (Nest ((λ t, Nest [Scalar (Z.of_nat (String.length t)); Scalar 0%Z])
                       <$> chars txt)), w);
  validation_error := λ _, "validation error for ModelResponse";
  tokenizer_tokenize := λ _ txt w, (Returned (chars txt), w);
  os_path_exists := λ p w, bool_decide (p ∈ dirs w);
  os_makedirs := λ p w,
    (Returned (),
     mkWorld (tokenizer_files w) (model_files w) (online w) (has_cuda w)
       (p :: dirs w));
|}.

(** The entry a load of [name] yields with this engine. *)
Definition entry (name : string) : gmap string (Handle engine) :=
  Main.new_entry (E:=engine) name name name.

(** An empty disk, with and without a connection to the hub. *)
Definition fresh_online : world := mkWorld [] [] true false [].
Definition fresh_offline : world := mkWorld [] [] false false [].

(** A hub that answers for the tokenizer and gives out at the model. *)
Definition flaky : Engine := {|
  World := world;
  Tokenizer := string;
  Model := string;
  Pipeline := string;
  Num := Z;
  AutoTokenizer_from_pretrained := tokenizer_from_pretrained;
  AutoModel_from_pretrained := λ name_or_path cache_dir local_files_only w,
    if bool_decide (name_or_path = "roberta-base")
    then (Failed "OSError" "Connection reset", w)
    else model_from_pretrained name_or_path cache_dir local_files_only w;
  pipeline := λ _ model _ _ w, (Returned model, w);
  cuda_is_available := has_cuda;
  pipeline_call := λ _ txt w, (Failed "RuntimeError" "out of memory", w);
  validation_error := λ _, "validation error for ModelResponse";
  tokenizer_tokenize := λ _ txt w, (Returned (chars txt), w);
  os_path_exists := λ p w, bool_decide (p ∈ dirs w);
  os_makedirs := λ p w,
    (Returned (),
     mkWorld (tokenizer_files w) (model_files w) (online w) (has_cuda w)
       (p :: dirs w));
|}.

End Mock.

(** ** Properties of states and of the engine used in the statements *)

Section Properties.
Context {E : Engine}.

(** The load of lines 110-173 on the engine's side: the local attempt and,
    when it raises an [Exception], the remote one. *)
Definition load_handles (model_name model_id : string)
  : M (Sys E) (Tokenizer E * Model E * Pipeline E) :=
  λ y, match load_steps (os_path_join MODELS_DIR model_name) None true y with
       | (Ok h, y1) => (Ok h, y1)
       | (Raise e, y1) =>
           if isinstance_Exception e
           then load_steps model_id
                  (Some (os_path_join MODELS_DIR model_name)) false y1
           else (Raise e, y1)
       end.

(** An entry holds the three handles under their keys. *)
Definition entry_complete (entry : gmap string (Handle E)) : Prop :=
  ∃ t m p, entry !! "tokenizer" = Some (HTokenizer t)
           ∧ entry !! "model" = Some (HModel m)
           ∧ entry !! "pipeline" = Some (HPipeline p).

Definition cache_complete (s : Main.State E) : Prop :=
  ∀ name entry, Main.model_cache s !! name = Some entry → entry_complete entry.

Definition cache_in_registry (s : Main.State E) : Prop :=
  ∀ name, is_Some (Main.model_cache s !! name) →
          name ∈ dict_keys SUPPORTED_MODELS.

(** The states a process goes through: requests served from an empty cache. *)
Definition reachable (s : Main.State E) : Prop :=
  ∃ w rs, s = Main.serve rs (Main.initial w).

(** The name a request loads successfully in state [s], if any. *)
Definition loaded_name (r : Main.Request) : option string :=
  match r with
  | Main.PostPredict request => Some (Main.req_model_name request)
  | Main.PostLoadModel name => Some name
  | _ => None
  end.

Definition loaded_by (r : Main.Request) (s : Main.State E) : gset string :=
  match loaded_name r with
  | Some name =>
      if dict_contains name SUPPORTED_MODELS then
        match Main.download_and_cache_model name s with
        | (Ok _, _) => {[ name ]}
        | (Raise _, _) => ∅
        end
      else ∅
  | None => ∅
  end.

(** The names successfully loaded while serving [rs] from [s]. *)
Fixpoint ever_loaded (rs : list Main.Request) (s : Main.State E) : gset string :=
  match rs with
  | [] => ∅
  | r :: rs' => loaded_by r s ∪ ever_loaded rs' (Main.handle r s)
  end.

(** How many of the three optional fields of a response are set. *)
Definition is_set {A} (o : option A) : bool :=
  match o with
  | Some _ => true
  | None => false
  end.

Definition populated (r : Main.ModelResponse E) : nat :=
  Nat.b2n (is_set (Main.embeddings r))
  + Nat.b2n (is_set (Main.features r))
  + Nat.b2n (is_set (Main.error r)).

(** Modelled from the spec: the storage behaviour of the inference engine,
    which is not part of the repository.  A remote load writes "into the same
    local storage path as a side effect (so subsequent local-only loads
    succeed)": the files a remote load leaves in [cache_dir] stay there, and
    a local-only load of a directory that holds them succeeds. *)
Record storage_contract : Type := {
  tokenizer_stored : string → World E → Prop;
  model_stored : string → World E → Prop;
  remote_tokenizer_stores : ∀ id dir w t w',
    AutoTokenizer_from_pretrained E id (Some dir) false w = (Returned t, w') →
    tokenizer_stored dir w';
  remote_model_stores : ∀ id dir w m w',
    AutoModel_from_pretrained E id (Some dir) false w = (Returned m, w') →
    model_stored dir w';
  tokenizer_load_keeps : ∀ dir p c l w o w',
    AutoTokenizer_from_pretrained E p c l w = (o, w') →
    (tokenizer_stored dir w → tokenizer_stored dir w')
    ∧ (model_stored dir w → model_stored dir w');
  model_load_keeps : ∀ dir p c l w o w',
    AutoModel_from_pretrained E p c l w = (o, w') →
    (tokenizer_stored dir w → tokenizer_stored dir w')
    ∧ (model_stored dir w → model_stored dir w');
  pipeline_keeps : ∀ dir k m t d w o w',
    pipeline E k m t d w = (o, w') →
    (tokenizer_stored dir w → tokenizer_stored dir w')
    ∧ (model_stored dir w → model_stored dir w');
  local_tokenizer_loads : ∀ dir w,
    tokenizer_stored dir w →
    ∃ t w', AutoTokenizer_from_pretrained E dir None true w = (Returned t, w');
  local_model_loads : ∀ dir w,
    model_stored dir w →
    ∃ m w', AutoModel_from_pretrained E dir None true w = (Returned m, w');
}.

(** The exceptions that come out of the engine or of Python's own
    operations, as opposed to the [HTTPException]s the endpoints raise. *)
Definition engine_exn (e : exn) : bool :=
  match e with
  | PyException _ _ | KeyboardInterrupt => true
  | HTTPException _ _ | SystemExit _ => false
  end.

End Properties.

(** ** Startup of the service *)

(** [os.listdir], which the startup code calls, is a read of the file system
    like [os.path.exists]: it returns the entries of a directory or raises,
    and leaves the world as it is. *)
Module Startup.
Section WithEngine.
Context {E : Engine}.
Context (os_listdir : string → World E → outcome (list string)).

Definition listdir (p : string) : M (Sys E) (list string) :=
  λ y, (res_of_outcome (os_listdir p (world y)), y).

(** main.py, lines 92-96. *)
Definition ensure_models_directory : M (Main.State E) unit :=
  present <- Main.lift (path_exists MODELS_DIR);
  if negb present then
    Main.lift (engine_call (CallMakedirs MODELS_DIR) (os_makedirs E MODELS_DIR))
  else ret ().

(** [os.path.exists(model_path) and os.listdir(model_path)] as a condition:
    the listing is taken only of a path that exists, and counts when it is
    not empty. *)
Definition has_files (model_path : string) : M (Main.State E) bool :=
  present <- Main.lift (path_exists model_path);
  if present then
    entries <- Main.lift (listdir model_path);
    ret (negb (bool_decide (entries = [])))
  else ret false.

(** The same condition read off a world. *)
Definition holds_files (w : World E) (model_name : string) : bool :=
  os_path_exists E (os_path_join MODELS_DIR model_name) w
  && match os_listdir (os_path_join MODELS_DIR model_name) w with
     | Returned (_ :: _) => true
     | _ => false
     end.

(** The loop of main.py, lines 44-48. *)
Fixpoint scan (names available_models : list string)
  : M (Main.State E) (list string) :=
  match names with
  | [] => ret available_models
  | model_name :: rest =>
      found <- has_files (os_path_join MODELS_DIR model_name);
      scan rest (if found then (available_models ++ [model_name])%list
                 else available_models)
  end.

(** main.py, lines 38-63: what [lifespan] does before it yields to the
    application.  The result is [available_models], which the code logs. *)
Definition lifespan_startup : M (Main.State E) (list string) :=
  ensure_models_directory;;
  scan (dict_keys SUPPORTED_MODELS) [].

End WithEngine.
End Startup.

(** A listing for the test double: a directory holds a file when a
    tokenizer or a model was stored in it. *)
Definition mock_listdir (p : string) (w : Mock.world) : outcome (list string) :=
  if bool_decide (p ∈ Mock.tokenizer_files w) || bool_decide (p ∈ Mock.model_files w)
  then Returned ["config.json"]
  else Returned [].

(** A test double whose pipeline answers as a batch of one text: a list
    holding one list of token vectors. *)
Definition mock_batched : Engine := {|
  World := Mock.world;
  Tokenizer := string;
  Model := string;
  Pipeline := string;
  Num := Z;
  AutoTokenizer_from_pretrained := Mock.tokenizer_from_pretrained;
  AutoModel_from_pretrained := Mock.model_from_pretrained;
  pipeline := λ _ model _ _ w, (Returned model, w);
  cuda_is_available := Mock.has_cuda;
  pipeline_call := λ _ txt w,
    (Returned
       (Nest [Nest ((λ t, Nest [Scalar (Z.of_nat (String.length t)); Scalar 0%Z])
                      <$> Mock.chars txt)]), w);
  validation_error := λ _, "validation error for ModelResponse";
  tokenizer_tokenize := λ _ txt w, (Returned (Mock.chars txt), w);
  os_path_exists := λ p w, bool_decide (p ∈ Mock.dirs w);
  os_makedirs := λ p w, (Returned (), w);
|}.

(** A test double whose user interrupts the first thing it is asked to load. *)
Definition mock_interrupted : Engine := {|
  World := Mock.world;
  Tokenizer := string;
  Model := string;
  Pipeline := string;
  Num := Z;
  AutoTokenizer_from_pretrained := λ _ _ _ w, (Interrupted, w);
  AutoModel_from_pretrained := Mock.model_from_pretrained;
  pipeline := λ _ model _ _ w, (Returned model, w);
  cuda_is_available := Mock.has_cuda;
  pipeline_call := λ _ txt w, (Returned (Nest []), w);
  validation_error := λ _, "validation error for ModelResponse";
  tokenizer_tokenize := λ _ txt w, (Returned (Mock.chars txt), w);
  os_path_exists := λ p w, bool_decide (p ∈ Mock.dirs w);
  os_makedirs := λ p w, (Returned (), w);
|}.

(** ** Kinds of engine calls *)

Definition is_load_call (c : call) : bool :=
  match c with
  | CallTokenizerFromPretrained _ _ _ | CallModelFromPretrained _ _ _
  | CallPipeline _ _ => true
  | _ => false
  end.


Definition is_remote_call (c : call) : bool :=
  match c with
  | CallTokenizerFromPretrained _ _ l | CallModelFromPretrained _ _ l => negb l
  | _ => false
  end.

(** A call of the three load steps made with the given arguments. *)
Definition load_call_matches (name_or_path : string) (cache_dir : option string)
    (local_files_only : bool) (k : call) : bool :=
  match k with
  | CallTokenizerFromPretrained p c l | CallModelFromPretrained p c l =>
      bool_decide (p = name_or_path ∧ c = cache_dir ∧ l = local_files_only)
  | CallPipeline t d =>
      bool_decide (t = "feature-extraction" ∧ (d = 0%Z ∨ d = (-1)%Z))
  | _ => false
  end.

(** The requests served by the three [GET] endpoints. *)
Definition is_get (r : Main.Request) : bool :=
  match r with
  | Main.GetRoot | Main.GetModels | Main.GetHealth => true
  | _ => false
  end.


(** The one engine call [predict] makes on the handles of a loaded model. *)
Definition task_call (request : Main.ModelRequest) : call :=
  if bool_decide (Main.req_task request = "feature-extraction")
  then CallPipelineRun (Main.req_text request)
  else CallTokenize (Main.req_text request).

(** ** The registry *)

Lemma dict_get_contains {V} (k : string) (d : list (string * V)) :
  dict_contains k d = true ↔ is_Some (dict_get k d).
Proof.
  unfold dict_contains, dict_keys. rewrite bool_decide_eq_true.
  induction d as [|[k' v] d IH]; simpl.
  - split; [intros H; inversion H | intros [? H]; discriminate].
  - rewrite elem_of_cons. destruct (decide (k = k')) as [->|Hne].
    + split; eauto.
    + rewrite <- IH. split; [intros [?|?]; [congruence|done] | auto].
Qed.

Lemma dict_get_keys {V} (k : string) (d : list (string * V)) (v : V) :
  dict_get k d = Some v → k ∈ dict_keys d.
Proof.
  intros H. assert (dict_contains k d = true) as Hc
    by (apply dict_get_contains; eauto).
  unfold dict_contains in Hc. by apply bool_decide_eq_true in Hc.
Qed.

Lemma dict_contains_false {V} (k : string) (d : list (string * V)) :
  dict_contains k d = false ↔ dict_get k d = None.
Proof.
  destruct (dict_get k d) as [v|] eqn:Hg.
  - assert (dict_contains k d = true) as -> by (apply dict_get_contains; eauto).
    split; discriminate.
  - destruct (dict_contains k d) eqn:Hc; [|done].
    apply dict_get_contains in Hc as [? Hc]. congruence.
Qed.

(** ** The cache: [download_and_cache_model] *)

Section Cache.
Context {E : Engine}.
Implicit Types (s : Main.State E) (name : string).

(** The function, with the monad and the [try] statements unfolded. *)
Lemma download_and_cache_model_eq name s :
  Main.download_and_cache_model name s =
  match Main.model_cache s !! name with
  | Some entry => (Ok entry, s)
  | None =>
      match dict_get name SUPPORTED_MODELS with
      | None =>
          (Raise (PyException "ValueError" ("Model " ++ name ++ " not supported")), s)
      | Some model_id =>
          match load_handles name model_id (Main.sys s) with
          | (Ok (t, m, p), y) =>
              (Ok (Main.new_entry t m p),
               Main.mkState (<[name := Main.new_entry t m p]> (Main.model_cache s)) y)
          | (Raise e, y) => (Raise e, Main.mkState (Main.model_cache s) y)
          end
      end
  end.
Proof.
  unfold Main.download_and_cache_model, bind at 1, Main.cache_contains.
  destruct (Main.model_cache s !! name) as [entry|] eqn:Hc.
  - rewrite bool_decide_eq_true_2 by eauto.
    unfold Main.cache_getitem, map_getitem. by rewrite Hc.
  - rewrite bool_decide_eq_false_2 by (intros [? ?]; discriminate).
    destruct (dict_get name SUPPORTED_MODELS) as [model_id|] eqn:Hg.
    + assert (dict_contains name SUPPORTED_MODELS = true) as ->
        by (apply dict_get_contains; eauto).
      cbn [negb]. unfold bind at 1, dict_getitem. rewrite Hg. unfold ret at 1.
      unfold try_except, bind, Main.lift, load_handles.
      destruct s as [c y]; cbn [Main.sys Main.model_cache].
      destruct (load_steps _ None true y) as [[[[t m] p]|e] y1]; cbn.
      * unfold Main.cache_getitem, map_getitem; cbn.
        by rewrite lookup_insert_eq.
      * destruct e; cbn; try done;
          destruct (load_steps _ (Some _) false y1) as [[[[t m] p]|e'] y2];
          cbn; unfold Main.cache_getitem, map_getitem; cbn;
          rewrite ?lookup_insert_eq; try done; by destruct e'.
    + apply dict_contains_false in Hg. rewrite Hg. cbn [negb].
      by destruct s.
Qed.

Lemma download_and_cache_model_hit name s entry :
  Main.model_cache s !! name = Some entry →
  Main.download_and_cache_model name s = (Ok entry, s).
Proof. intros H. by rewrite download_and_cache_model_eq, H. Qed.

Lemma engine_call_raises {A} c (f : World E → outcome A * World E) y e y' :
  engine_call c f y = (Raise e, y') → engine_exn e = true.
Proof.
  unfold engine_call. destruct (f (world y)) as [[a|cls msg|] w']; cbn;
    intros [= <- <-]; done.
Qed.

Lemma load_steps_raises p c l (y : Sys E) e y' :
  load_steps p c l y = (Raise e, y') → engine_exn e = true.
Proof.
  unfold load_steps, bind, torch_cuda_is_available, ret.
  destruct (engine_call _ _ y) as [[t|e1] y1] eqn:H1;
    [|intros [= <- <-]; eauto using engine_call_raises].
  destruct (engine_call _ _ y1) as [[m|e2] y2] eqn:H2;
    [|intros [= <- <-]; eauto using engine_call_raises].
  destruct (engine_call _ _ y2) as [[q|e3] y3] eqn:H3;
    [done|intros [= <- <-]; eauto using engine_call_raises].
Qed.

Lemma load_handles_raises name model_id (y : Sys E) e y' :
  load_handles name model_id y = (Raise e, y') → engine_exn e = true.
Proof.
  unfold load_handles.
  destruct (load_steps _ None true y) as [[h|e1] y1] eqn:H1; [done|].
  destruct (isinstance_Exception e1).
  - apply load_steps_raises.
  - intros [= <- <-]. eauto using load_steps_raises.
Qed.

Lemma download_and_cache_model_raises name s e s' :
  Main.download_and_cache_model name s = (Raise e, s') →
  engine_exn e = true
  ∧ Main.model_cache s' = Main.model_cache s
  ∧ Main.model_cache s !! name = None.
Proof.
  rewrite download_and_cache_model_eq.
  destruct (Main.model_cache s !! name) as [entry|] eqn:Hc; [done|].
  destruct (dict_get name SUPPORTED_MODELS) as [model_id|].
  - destruct (load_handles _ _ _) as [[[[t m] p]|e1] y1] eqn:Hl; [done|].
    intros [= <- <-]. eauto using load_handles_raises.
  - intros [= <- <-]. done.
Qed.

Lemma new_entry_complete (t : Tokenizer E) (m : Model E) (p : Pipeline E) :
  entry_complete (Main.new_entry t m p).
Proof. exists t, m, p. unfold Main.new_entry. by simplify_map_eq. Qed.

(** A successful call leaves the entry it returns in the cache; the entry
    was there already or is a fresh complete one for a registry name. *)
Lemma download_and_cache_model_returns name s entry s' :
  Main.download_and_cache_model name s = (Ok entry, s') →
  Main.model_cache s' = <[name := entry]> (Main.model_cache s)
  ∧ (Main.model_cache s !! name = Some entry ∧ s' = s
     ∨ Main.model_cache s !! name = None
       ∧ name ∈ dict_keys SUPPORTED_MODELS ∧ entry_complete entry).
Proof.
  rewrite download_and_cache_model_eq.
  destruct (Main.model_cache s !! name) as [entry0|] eqn:Hc.
  - intros [= <- <-]. split; [by rewrite insert_id | by left].
  - destruct (dict_get name SUPPORTED_MODELS) as [model_id|] eqn:Hg; [|done].
    destruct (load_handles _ _ _) as [[[[t m] p]|e1] y1] eqn:Hl; [|done].
    intros [= <- <-]. split; [done|right].
    eauto using dict_get_keys, new_entry_complete.
Qed.

End Cache.

(** ** The endpoints *)

Section Endpoints.
Context {E : Engine}.
Implicit Types (s : Main.State E) (name : string).

Lemma lift_cache {A} (m : M (Sys E) A) s :
  Main.model_cache (Main.lift m s).2 = Main.model_cache s.
Proof. unfold Main.lift. by destruct (m (Main.sys s)). Qed.

Lemma call_handle_cache h txt s :
  Main.model_cache (Main.call_handle h txt s).2 = Main.model_cache s.
Proof. destruct h; cbn; try done. apply lift_cache. Qed.

Lemma tokenize_handle_cache h txt s :
  Main.model_cache (Main.tokenize_handle h txt s).2 = Main.model_cache s.
Proof. destruct h; cbn; try done. apply lift_cache. Qed.

(** [predict] with the monad and the [try] statement unfolded. *)
Lemma predict_unsupported request s :
  dict_contains (Main.req_model_name request) SUPPORTED_MODELS = false →
  Main.predict request s =
    (Raise (HTTPException 400
              (Main.unsupported_detail (Main.req_model_name request))), s).
Proof.
  intros H. unfold Main.predict, try_except, Main.predict_body, bind at 1.
  by rewrite H.
Qed.

Lemma predict_body_supported request s :
  dict_contains (Main.req_model_name request) SUPPORTED_MODELS = true →
  Main.predict_body request s =
  match Main.download_and_cache_model (Main.req_model_name request) s with
  | (Raise e, s1) => (Raise e, s1)
  | (Ok model_data, s1) =>
      match model_data !! "pipeline" with
      | None => (Raise (PyException "KeyError" (py_repr_str "pipeline")), s1)
      | Some pipeline_obj =>
          if bool_decide (Main.req_task request = "feature-extraction") then
            match Main.call_handle pipeline_obj (Main.req_text request) s1 with
            | (Ok value, s2) =>
                match validate_embeddings value with
                | Some rows =>
                    (Ok (Main.mkResponse (Main.req_model_name request)
                           (Main.req_text request) (Main.req_task request)
                           (Some rows) None None), s2)
                | None =>
                    (Raise (PyException "ValidationError"
                              (validation_error E value)), s2)
                end
            | (Raise e, s2) => (Raise e, s2)
            end
          else
            match model_data !! "tokenizer" with
            | None => (Raise (PyException "KeyError" (py_repr_str "tokenizer")), s1)
            | Some tokenizer =>
                match Main.tokenize_handle tokenizer (Main.req_text request) s1 with
                | (Ok tokens, s2) =>
                    (Ok (Main.mkResponse (Main.req_model_name request)
                           (Main.req_text request) (Main.req_task request) None
                           (Some (Main.features_dict tokens (Main.req_text request)))
                           None), s2)
                | (Raise e, s2) => (Raise e, s2)
                end
            end
      end
  end.
Proof.
  intros H. unfold Main.predict_body, bind at 1. rewrite H. cbn [negb].
  unfold ret at 1, bind at 1.
  destruct (Main.download_and_cache_model _ s) as [[data|e] s1]; [|done].
  unfold bind at 1, map_getitem at 1.
  destruct (data !! "pipeline") as [h|]; [|done].
  unfold ret at 1. destruct (bool_decide _).
  - unfold bind, Main.response_with_embeddings.
    destruct (Main.call_handle _ _ _) as [[value|e] s2]; [|done].
    by destruct (validate_embeddings value).
  - unfold bind at 1, map_getitem at 1.
    destruct (data !! "tokenizer") as [h'|]; [|done].
    unfold ret at 1, bind. by destruct (Main.tokenize_handle _ _ _) as [[tk|e] s2].
Qed.

Lemma predict_eq request s :
  Main.predict request s =
  match Main.predict_body request s with
  | (Ok r, s') => (Ok r, s')
  | (Raise e, s') =>
      if isinstance_HTTPException e then (Raise e, s')
      else if isinstance_Exception e
           then (Ok (Main.error_response request e), s')
           else (Raise e, s')
  end.
Proof.
  unfold Main.predict, try_except.
  destruct (Main.predict_body request s) as [[r|e] s']; [done|].
  by destruct e.
Qed.

Lemma call_handle_raises h txt s e s' :
  Main.call_handle h txt s = (Raise e, s') → engine_exn e = true.
Proof.
  destruct h; cbn; try (intros [= <- <-]; done).
  unfold Main.lift. destruct (engine_call _ _ _) as [[a|e1] y1] eqn:Hc; [done|].
  intros [= <- <-]. eauto using engine_call_raises.
Qed.

Lemma tokenize_handle_raises h txt s e s' :
  Main.tokenize_handle h txt s = (Raise e, s') → engine_exn e = true.
Proof.
  destruct h; cbn; try (intros [= <- <-]; done).
  unfold Main.lift. destruct (engine_call _ _ _) as [[a|e1] y1] eqn:Hc; [done|].
  intros [= <- <-]. eauto using engine_call_raises.
Qed.

(** With a registry name, the [try] block raises no [HTTPException]. *)
Lemma predict_body_raises request s e s' :
  dict_contains (Main.req_model_name request) SUPPORTED_MODELS = true →
  Main.predict_body request s = (Raise e, s') → engine_exn e = true.
Proof.
  intros H. rewrite predict_body_supported by done.
  destruct (Main.download_and_cache_model _ s) as [[data|e0] s1] eqn:Hd.
  - destruct (data !! "pipeline") as [h|]; [|by intros [= <- <-]].
    destruct (bool_decide _).
    + destruct (Main.call_handle _ _ _) as [[value|e1] s2] eqn:Hc.
      * destruct (validate_embeddings value); [done|]. by intros [= <- <-].
      * intros [= <- <-]. eauto using call_handle_raises.
    + destruct (data !! "tokenizer") as [h'|]; [|by intros [= <- <-]].
      destruct (Main.tokenize_handle _ _ _) as [[tk|e1] s2] eqn:Hc; [done|].
      intros [= <- <-]. eauto using tokenize_handle_raises.
  - intros [= <- <-]. by apply download_and_cache_model_raises in Hd as [? _].
Qed.

(** The cache after the [try] block is the cache after the load. *)
Lemma predict_body_cache request s :
  dict_contains (Main.req_model_name request) SUPPORTED_MODELS = true →
  Main.model_cache (Main.predict_body request s).2 =
  Main.model_cache (Main.download_and_cache_model (Main.req_model_name request) s).2.
Proof.
  intros H. rewrite predict_body_supported by done.
  destruct (Main.download_and_cache_model _ s) as [[data|e0] s1] eqn:Hd; [|done].
  destruct (data !! "pipeline") as [h|]; [|done].
  destruct (bool_decide _).
  - pose proof (call_handle_cache h (Main.req_text request) s1) as Hc.
    destruct (Main.call_handle _ _ _) as [[value|e1] s2]; [|done].
    by destruct (validate_embeddings value).
  - destruct (data !! "tokenizer") as [h'|]; [|done].
    pose proof (tokenize_handle_cache h' (Main.req_text request) s1) as Hc.
    by destruct (Main.tokenize_handle _ _ _) as [[tk|e1] s2].
Qed.

Lemma predict_cache request s :
  Main.model_cache (Main.predict request s).2 =
  if dict_contains (Main.req_model_name request) SUPPORTED_MODELS
  then Main.model_cache
         (Main.download_and_cache_model (Main.req_model_name request) s).2
  else Main.model_cache s.
Proof.
  destruct (dict_contains _ _) eqn:H.
  - rewrite <- predict_body_cache by done. rewrite predict_eq.
    destruct (Main.predict_body request s) as [[r|e] s']; [done|].
    destruct (isinstance_HTTPException e); [done|].
    by destruct (isinstance_Exception e).
  - by rewrite predict_unsupported.
Qed.

(** [load_model] with the monad and the [try] statement unfolded. *)
Lemma load_model_eq name s :
  Main.load_model name s =
  if dict_contains name SUPPORTED_MODELS then
    match Main.download_and_cache_model name s with
    | (Ok _, s1) => (Ok ("Model " ++ name ++ " loaded successfully"), s1)
    | (Raise e, s1) =>
        if isinstance_Exception e
        then (Raise (HTTPException 500 (str_exn e)), s1)
        else (Raise e, s1)
    end
  else
    (Raise (HTTPException 500
              (str_exn (HTTPException 400 ("Model " ++ name ++ " not supported")))),
     s).
Proof.
  unfold Main.load_model, try_except, bind at 1.
  destruct (dict_contains name SUPPORTED_MODELS); cbn [negb]; [|done].
  unfold ret at 1, bind.
  destruct (Main.download_and_cache_model name s) as [[data|e] s1]; [done|].
  by destruct e.
Qed.

Lemma load_model_cache name s :
  Main.model_cache (Main.load_model name s).2 =
  if dict_contains name SUPPORTED_MODELS
  then Main.model_cache (Main.download_and_cache_model name s).2
  else Main.model_cache s.
Proof.
  rewrite load_model_eq. destruct (dict_contains _ _); [|done].
  destruct (Main.download_and_cache_model name s) as [[data|e] s1]; [done|].
  by destruct (isinstance_Exception e).
Qed.

(** The cache after a request. *)
Lemma handle_cache r s :
  Main.model_cache (Main.handle r s) =
  match loaded_name r with
  | Some name =>
      if dict_contains name SUPPORTED_MODELS
      then Main.model_cache (Main.download_and_cache_model name s).2
      else Main.model_cache s
  | None => Main.model_cache s
  end.
Proof.
  destruct r as [| | |request|name]; cbn [Main.handle loaded_name];
    auto using predict_cache, load_model_cache.
Qed.

End Endpoints.

(** ** The process: invariants of the cache *)

Section Process.
Context {E : Engine}.
Implicit Types (s : Main.State E) (name : string) (r : Main.Request).

Lemma serve_cons r rs s :
  Main.serve (r :: rs) s = Main.serve rs (Main.handle r s).
Proof. done. Qed.

(** A request leaves the cache as it is or adds one complete entry under a
    registry name that had none. *)
Lemma handle_cache_cases r s :
  Main.model_cache (Main.handle r s) = Main.model_cache s
  ∨ ∃ name entry,
      loaded_name r = Some name
      ∧ Main.model_cache s !! name = None
      ∧ name ∈ dict_keys SUPPORTED_MODELS
      ∧ entry_complete entry
      ∧ Main.model_cache (Main.handle r s) = <[name := entry]> (Main.model_cache s).
Proof.
  rewrite handle_cache. destruct (loaded_name r) as [name|]; [|by left].
  destruct (dict_contains name SUPPORTED_MODELS); [|by left].
  destruct (Main.download_and_cache_model name s) as [[entry|e] s1] eqn:Hd.
  - apply download_and_cache_model_returns in Hd as [Hc [[Hhit ->]|(Hn & Hk & He)]].
    + by left.
    + right. by exists name, entry.
  - apply download_and_cache_model_raises in Hd as (_ & Hc & _). by left.
Qed.

Lemma handle_keeps_entry r s name entry :
  Main.model_cache s !! name = Some entry →
  Main.model_cache (Main.handle r s) !! name = Some entry.
Proof.
  intros H. destruct (handle_cache_cases r s) as [->|(n & e & _ & Hn & _ & _ & ->)];
    [done|].
  rewrite lookup_insert_ne; [done|congruence].
Qed.

Lemma serve_keeps_entry rs s name entry :
  Main.model_cache s !! name = Some entry →
  Main.model_cache (Main.serve rs s) !! name = Some entry.
Proof.
  revert s. induction rs as [|r rs IH]; intros s H; [done|].
  rewrite serve_cons. eauto using handle_keeps_entry.
Qed.

Lemma handle_cache_complete r s :
  cache_complete s → cache_complete (Main.handle r s).
Proof.
  intros H n e. destruct (handle_cache_cases r s)
    as [->|(n' & e' & _ & _ & _ & He & ->)]; [apply H|].
  rewrite lookup_insert. case_decide; [by intros [= <-] | apply H].
Qed.

Lemma handle_cache_in_registry r s :
  cache_in_registry s → cache_in_registry (Main.handle r s).
Proof.
  intros H n. destruct (handle_cache_cases r s)
    as [->|(n' & e' & _ & _ & Hk & _ & ->)]; [apply H|].
  rewrite lookup_insert. case_decide as Hn; [by subst | apply H].
Qed.

Lemma initial_cache_complete w : cache_complete (Main.initial (E:=E) w).
Proof. intros n e. cbn. by rewrite lookup_empty. Qed.

Lemma initial_cache_in_registry w : cache_in_registry (Main.initial (E:=E) w).
Proof. intros n. cbn. rewrite lookup_empty. by intros [? ?]. Qed.

Lemma serve_invariant (P : Main.State E → Prop) :
  (∀ r s, P s → P (Main.handle r s)) →
  ∀ rs s, P s → P (Main.serve rs s).
Proof.
  intros Hstep rs. induction rs as [|r rs IH]; intros s H; [done|].
  rewrite serve_cons. auto.
Qed.

Lemma reachable_cache_complete s : reachable s → cache_complete s.
Proof.
  intros (w & rs & ->).
  apply serve_invariant; auto using handle_cache_complete, initial_cache_complete.
Qed.

Lemma reachable_cache_in_registry s : reachable s → cache_in_registry s.
Proof.
  intros (w & rs & ->).
  apply serve_invariant;
    auto using handle_cache_in_registry, initial_cache_in_registry.
Qed.

Lemma reachable_handle r s : reachable s → reachable (Main.handle r s).
Proof.
  intros (w & rs & ->). exists w, (rs ++ [r])%list.
  unfold Main.serve. by rewrite foldl_app.
Qed.

(** The names in the cache after a request: those before and the one the
    request loaded. *)
Lemma handle_dom r s :
  dom (Main.model_cache (Main.handle r s)) =
  dom (Main.model_cache s) ∪ loaded_by r s.
Proof.
  rewrite handle_cache. unfold loaded_by.
  destruct (loaded_name r) as [name|]; [|by rewrite (right_id_L ∅ (∪))].
  destruct (dict_contains name SUPPORTED_MODELS);
    [|by rewrite (right_id_L ∅ (∪))].
  destruct (Main.download_and_cache_model name s) as [[entry|e] s1] eqn:Hd;
    cbn [snd].
  - apply download_and_cache_model_returns in Hd as [-> _].
    rewrite dom_insert_L. apply union_comm_L.
  - apply download_and_cache_model_raises in Hd as (_ & -> & _).
    by rewrite (right_id_L ∅ (∪)).
Qed.

Lemma serve_dom rs s :
  dom (Main.model_cache (Main.serve rs s)) =
  dom (Main.model_cache s) ∪ ever_loaded rs s.
Proof.
  revert s. induction rs as [|r rs IH]; intros s;
    [cbn; by rewrite (right_id_L ∅ (∪))|].
  rewrite serve_cons, IH, handle_dom. cbn [ever_loaded].
  by rewrite (assoc_L (∪)).
Qed.

Lemma health_check_eq s :
  Main.health_check s =
  (Ok (Main.mkHealth "healthy" (size (Main.model_cache s))
         (cuda_is_available E (world (Main.sys s)))), s).
Proof. by destruct s as [c [w cs]]. Qed.

End Process.

(** ** Unsupported names *)

Section Unsupported.
Context {E : Engine}.
Implicit Types (s : Main.State E) (name : string).

(** With the cache within the registry, a name outside the registry makes
    [download_and_cache_model] raise [ValueError] and leave the state. *)
Lemma download_and_cache_model_unsupported name s :
  cache_in_registry s →
  dict_contains name SUPPORTED_MODELS = false →
  Main.download_and_cache_model name s =
    (Raise (PyException "ValueError" ("Model " ++ name ++ " not supported")), s).
Proof.
  intros Hinv Hn. rewrite download_and_cache_model_eq.
  destruct (Main.model_cache s !! name) as [entry|] eqn:Hc.
  - assert (name ∈ dict_keys SUPPORTED_MODELS) as Hk by (apply Hinv; eauto).
    unfold dict_contains in Hn. by apply bool_decide_eq_false in Hn.
  - apply dict_contains_false in Hn. by rewrite Hn.
Qed.

(** [POST /predict] answers 400 and leaves the state. *)
Lemma predict_unsupported_status request s :
  dict_contains (Main.req_model_name request) SUPPORTED_MODELS = false →
  Main.http_status (Main.predict request s).1 = Some 400
  ∧ (Main.predict request s).2 = s.
Proof. intros H. by rewrite predict_unsupported. Qed.

(** [POST /load-model/{name}] leaves the state, and answers 500: the
    [HTTPException] with status 400 is raised inside the [try] whose
    [except Exception] turns every exception into a 500. *)
Lemma load_model_unsupported name s :
  dict_contains name SUPPORTED_MODELS = false →
  Main.load_model name s =
    (Raise (HTTPException 500 ("400: Model " ++ name ++ " not supported")), s).
Proof. intros H. rewrite load_model_eq, H. done. Qed.

End Unsupported.

(** C1: for a name that is not in the registry the claim has
    [POST /load-model/{name}] answer 400 with the cache unchanged.  At
    ["invalid-model"] the cache is unchanged, but the answer is 500, with the
    400 error as its detail. *)
Theorem load_model_invalid_model_answers_500 (E : Engine) (s : Main.State E) :
  Main.load_model "invalid-model" s =
    (Raise (HTTPException 500 "400: Model invalid-model not supported"), s)
  ∧ Main.http_status (Main.load_model "invalid-model" s).1 = Some 500
  ∧ Main.http_status
      (Main.predict (Main.mkRequest "Hello world" "invalid-model"
                       "feature-extraction") s).1 = Some 400.
Proof.
  rewrite load_model_unsupported by done. split_and!; done.
Qed.

(** ** Memoisation and atomicity of loads *)

(** C3: the entry a successful [download_and_cache_model] returns is in the
    cache afterwards, and after any further requests a call with the same
    name returns that entry and leaves the whole state, the log of engine
    calls included, as it is: no local or remote load is performed. *)
Theorem download_and_cache_model_memoizes (E : Engine) (name : string)
    (s s1 : Main.State E) (entry : gmap string (Handle E)) :
  Main.download_and_cache_model name s = (Ok entry, s1) →
  Main.model_cache s1 !! name = Some entry
  ∧ ∀ rs, Main.download_and_cache_model name (Main.serve rs s1)
          = (Ok entry, Main.serve rs s1)
          ∧ calls (Main.sys (Main.download_and_cache_model name (Main.serve rs s1)).2)
            = calls (Main.sys (Main.serve rs s1)).
Proof.
  intros Hd. apply download_and_cache_model_returns in Hd as [Hc _].
  assert (Main.model_cache s1 !! name = Some entry) as Hin
    by (rewrite Hc; apply lookup_insert_eq).
  split; [done|]. intros rs.
  rewrite (download_and_cache_model_hit name _ entry); [done|].
  by apply serve_keeps_entry.
Qed.

Lemma download_and_cache_model_memoizes_witness :
  let s := Main.initial (E:=Mock.engine) Mock.fresh_online in
  let r := Main.download_and_cache_model "roberta-base" s in
  let s2 := Main.serve [Main.GetHealth; Main.PostLoadModel "albert-base-v2"] r.2 in
  Main.model_cache r.2 !! "roberta-base" = Some (Mock.entry "roberta-base")
  ∧ length (calls (Main.sys r.2)) = 4
  ∧ Main.download_and_cache_model "roberta-base" s2
    = (Ok (Mock.entry "roberta-base"), s2).
Proof.
  intros s r s2.
  destruct (download_and_cache_model_memoizes Mock.engine "roberta-base" s r.2
              (Mock.entry "roberta-base"))
    as [H1 H2]; [reflexivity|].
  split; [exact H1|]. split; [reflexivity|].
  exact (proj1 (H2 [Main.GetHealth; Main.PostLoadModel "albert-base-v2"])).
Defined.

Section Atomicity.
Context {E : Engine}.
Implicit Types (s : Main.State E) (name : string).

(** What the remote attempt raises is what the caller gets, with nothing
    inserted. *)
Lemma download_and_cache_model_propagates name model_id s e1 y1 e y2 :
  dict_get name SUPPORTED_MODELS = Some model_id →
  Main.model_cache s !! name = None →
  load_steps (os_path_join MODELS_DIR name) None true (Main.sys s)
    = (Raise e1, y1) →
  isinstance_Exception e1 = true →
  load_steps model_id (Some (os_path_join MODELS_DIR name)) false y1
    = (Raise e, y2) →
  Main.download_and_cache_model name s
    = (Raise e, Main.mkState (Main.model_cache s) y2).
Proof.
  intros Hg Hc H1 He1 H2. rewrite download_and_cache_model_eq, Hc, Hg.
  unfold load_handles. by rewrite H1, He1, H2.
Qed.

End Atomicity.

(** C4: a load that raises leaves the cache as it was, without the name; the
    exception of a failing remote attempt is the one the caller gets; and in
    every state the process reaches, each name in the cache has its
    tokenizer, its model and its pipeline. *)
Theorem load_is_atomic (E : Engine) :
  (∀ (name : string) (s s' : Main.State E) (e : exn),
      Main.download_and_cache_model name s = (Raise e, s') →
      Main.model_cache s' = Main.model_cache s
      ∧ Main.model_cache s' !! name = None)
  ∧ (∀ (name model_id : string) (s : Main.State E) e1 y1 e y2,
      dict_get name SUPPORTED_MODELS = Some model_id →
      Main.model_cache s !! name = None →
      load_steps (os_path_join MODELS_DIR name) None true (Main.sys s)
        = (Raise e1, y1) →
      isinstance_Exception e1 = true →
      load_steps model_id (Some (os_path_join MODELS_DIR name)) false y1
        = (Raise e, y2) →
      Main.download_and_cache_model name s
        = (Raise e, Main.mkState (Main.model_cache s) y2))
  ∧ (∀ s : Main.State E, reachable s → cache_complete s).
Proof.
  split_and!.
  - intros name s s' e Hd.
    apply download_and_cache_model_raises in Hd as (_ & Hc & Hn).
    split; [done|]. by rewrite Hc.
  - apply @download_and_cache_model_propagates.
  - apply @reachable_cache_complete.
Qed.

Lemma load_is_atomic_witness :
  let s := Main.serve [Main.PostLoadModel "bert-base-uncased"]
             (Main.initial (E:=Mock.flaky) Mock.fresh_online) in
  let r := Main.download_and_cache_model "roberta-base" s in
  r.1 = Raise (PyException "OSError" "Connection reset")
  ∧ Main.model_cache r.2 = Main.model_cache s
  ∧ Main.model_cache r.2 !! "roberta-base" = None
  ∧ cache_complete s.
Proof.
  intros s r.
  destruct (load_is_atomic Mock.flaky) as (Hraise & _ & Hinv).
  destruct (Hraise "roberta-base" s r.2 (PyException "OSError" "Connection reset"))
    as [H1 H2]; [reflexivity|].
  split; [reflexivity|]. split; [exact H1|]. split; [exact H2|].
  apply Hinv. exists Mock.fresh_online, [Main.PostLoadModel "bert-base-uncased"].
  reflexivity.
Defined.

(** ** The cache and the registry *)

Section Listing.
Context {E : Engine}.
Implicit Types (s : Main.State E).

Lemma list_models_eq s :
  Main.list_models s =
  (Ok (Main.mkModelsInfo (dict_keys SUPPORTED_MODELS)
         (map_to_list (Main.model_cache s)).*1), s).
Proof. done. Qed.

Lemma elem_of_loaded_models s name :
  name ∈ (map_to_list (Main.model_cache s)).*1
  ↔ is_Some (Main.model_cache s !! name).
Proof.
  rewrite list_elem_of_fmap. split.
  - intros ([k v] & -> & Hin). apply elem_of_map_to_list in Hin. eauto.
  - intros [v Hv]. exists (name, v). split; [done|].
    by apply elem_of_map_to_list.
Qed.

End Listing.

(** C10: the cache of a starting process has its keys in the registry, every
    request keeps it so, and so in every state the process reaches the
    [loaded_models] of [GET /models] are among its [supported_models]. *)
Theorem cache_keys_are_registry_keys (E : Engine) :
  (∀ w : World E, cache_in_registry (Main.initial w))
  ∧ (∀ (r : Main.Request) (s : Main.State E),
        cache_in_registry s → cache_in_registry (Main.handle r s))
  ∧ (∀ s : Main.State E, reachable s →
        cache_in_registry s
        ∧ ∃ info, Main.list_models s = (Ok info, s)
                  ∧ Main.loaded_models info ⊆ Main.supported_models info).
Proof.
  split_and!.
  - apply @initial_cache_in_registry.
  - apply @handle_cache_in_registry.
  - intros s Hs. pose proof (reachable_cache_in_registry s Hs) as Hinv.
    split; [done|]. eexists. split; [apply list_models_eq|].
    intros name Hin. apply elem_of_loaded_models in Hin. by apply Hinv.
Qed.

Lemma cache_keys_are_registry_keys_witness :
  let s := Main.serve
             [Main.PostLoadModel "albert-base-v1";
              Main.PostPredict (Main.mkRequest "Hello world" "invalid-model" "feature-extraction");
              Main.PostLoadModel "invalid-model"]
             (Main.initial (E:=Mock.engine) Mock.fresh_online) in
  cache_in_registry s
  ∧ ∃ info, Main.list_models s = (Ok info, s)
            ∧ Main.loaded_models info = ["albert-base-v1"]
            ∧ Main.loaded_models info ⊆ Main.supported_models info.
Proof.
  intros s.
  destruct (cache_keys_are_registry_keys Mock.engine) as (_ & _ & H).
  destruct (H s) as (Hinv & info & Hl & Hsub).
  - eexists Mock.fresh_online, _. reflexivity.
  - split; [exact Hinv|]. exists info. split; [exact Hl|].
    split; [|exact Hsub].
    injection Hl as <-. reflexivity.
Defined.

(** ** The health check *)

Section Health.
Context {E : Engine}.
Implicit Types (s : Main.State E).

Lemma size_cache_from_empty w rs :
  size (Main.model_cache (Main.serve rs (Main.initial (E:=E) w)))
  = size (ever_loaded rs (Main.initial w)).
Proof.
  rewrite <- size_dom, serve_dom. cbn [Main.initial Main.model_cache].
  by rewrite dom_empty_L, (left_id_L ∅ (∪)).
Qed.

Lemma predict_loaded_keeps_cache request s :
  is_Some (Main.model_cache s !! Main.req_model_name request) →
  Main.model_cache (Main.handle (Main.PostPredict request) s)
  = Main.model_cache s.
Proof.
  intros [entry Hc]. rewrite handle_cache. cbn [loaded_name].
  destruct (dict_contains _ _); [|done].
  by rewrite (download_and_cache_model_hit _ _ entry).
Qed.

End Health.

(** C8: in the state reached from an empty cache by any requests,
    [GET /health] reports ["healthy"] and, as [models_loaded], the number of
    distinct names loaded successfully so far; each of those names is still
    in the cache; and after a [POST /predict] for a name in the cache the
    cache is the same and the health check reports the same count. *)
Theorem health_counts_loaded_models (E : Engine) (w : World E)
    (rs : list Main.Request) :
  let s := Main.serve rs (Main.initial w) in
  (∃ h, Main.health_check s = (Ok h, s)
        ∧ Main.status h = "healthy"
        ∧ Main.models_loaded h = size (ever_loaded rs (Main.initial w)))
  ∧ (∀ name, name ∈ ever_loaded rs (Main.initial w) →
             is_Some (Main.model_cache s !! name))
  ∧ (∀ request, is_Some (Main.model_cache s !! Main.req_model_name request) →
        Main.model_cache (Main.handle (Main.PostPredict request) s)
          = Main.model_cache s
        ∧ ∃ h', (Main.health_check (Main.handle (Main.PostPredict request) s)).1
                  = Ok h'
                ∧ Main.status h' = "healthy"
                ∧ Main.models_loaded h' = size (ever_loaded rs (Main.initial w))).
Proof.
  intros s. split_and!.
  - eexists. split; [apply health_check_eq|]. split; [done|].
    cbn [Main.models_loaded]. apply size_cache_from_empty.
  - intros name Hin. apply elem_of_dom. unfold s. rewrite serve_dom. set_solver.
  - intros request Hc. pose proof (predict_loaded_keeps_cache request s Hc) as Hk.
    split; [done|]. eexists. rewrite health_check_eq. split; [done|].
    split; [done|]. cbn [Main.models_loaded]. rewrite Hk.
    apply size_cache_from_empty.
Qed.

Lemma health_counts_loaded_models_witness :
  let rs := [Main.PostLoadModel "roberta-base";
             Main.PostPredict (Main.mkRequest "Hello world" "roberta-base" "feature-extraction");
             Main.PostPredict (Main.mkRequest "Hello world" "bert-base-uncased" "tokens");
             Main.PostPredict (Main.mkRequest "Hello" "roberta-base" "feature-extraction")] in
  let s := Main.serve rs (Main.initial (E:=Mock.engine) Mock.fresh_online) in
  ever_loaded rs (Main.initial (E:=Mock.engine) Mock.fresh_online)
    = {[ "roberta-base"; "bert-base-uncased" ]}
  ∧ (Main.health_check s).1 = Ok (Main.mkHealth "healthy" 2 false)
  ∧ Main.model_cache
      (Main.handle
         (Main.PostPredict (Main.mkRequest "again" "roberta-base" "feature-extraction")) s)
    = Main.model_cache s.
Proof.
  intros rs s.
  destruct (health_counts_loaded_models Mock.engine Mock.fresh_online rs)
    as ((h & Hh & Hs & Hn) & _ & Hp).
  split; [reflexivity|]. split; [reflexivity|].
  apply (Hp (Main.mkRequest "again" "roberta-base" "feature-extraction")).
  eexists. reflexivity.
Defined.

(** ** [POST /predict] *)

Section Predict.
Context {E : Engine}.
Implicit Types (s : Main.State E) (request : Main.ModelRequest).

Lemma error_response_populated request e :
  populated (Main.error_response (E:=E) request e) = 1
  ∧ Main.embeddings (Main.error_response (E:=E) request e) = None
  ∧ Main.features (Main.error_response (E:=E) request e) = None.
Proof. done. Qed.

(** A response the [try] block returns has embeddings or features, one of
    the two, and no error. *)
Lemma predict_body_returns request s r s' :
  dict_contains (Main.req_model_name request) SUPPORTED_MODELS = true →
  Main.predict_body request s = (Ok r, s') →
  populated r = 1 ∧ Main.error r = None.
Proof.
  intros H. rewrite predict_body_supported by done.
  destruct (Main.download_and_cache_model _ s) as [[data|e0] s1]; [|done].
  destruct (data !! "pipeline") as [h|]; [|done].
  destruct (bool_decide _).
  - destruct (Main.call_handle _ _ _) as [[value|e1] s2]; [|done].
    destruct (validate_embeddings value); [|done].
    by intros [= <- <-].
  - destruct (data !! "tokenizer") as [h'|]; [|done].
    destruct (Main.tokenize_handle _ _ _) as [[tk|e1] s2]; [|done].
    by intros [= <- <-].
Qed.

Lemma predict_catches request s e s1 :
  Main.predict_body request s = (Raise e, s1) →
  isinstance_HTTPException e = false →
  isinstance_Exception e = true →
  Main.predict request s = (Ok (Main.error_response request e), s1).
Proof. intros Hb Hh He. by rewrite predict_eq, Hb, Hh, He. Qed.

Lemma engine_exn_not_http e :
  engine_exn e = true → isinstance_HTTPException e = false.
Proof. by destruct e. Qed.

Lemma engine_exn_cases e :
  engine_exn e = true →
  (∃ cls msg, e = PyException cls msg) ∨ e = KeyboardInterrupt.
Proof. destruct e; try done; eauto. Qed.

(** The entry a call returns in a state with complete entries is complete. *)
Lemma download_and_cache_model_complete name s data s1 :
  cache_complete s →
  Main.download_and_cache_model name s = (Ok data, s1) →
  entry_complete data.
Proof.
  intros Hinv Hd.
  apply download_and_cache_model_returns in Hd as [_ [[Hc _]|(_ & _ & He)]];
    eauto.
Qed.

End Predict.

(** C5: what [POST /predict] does with exceptions.  A response it returns
    has exactly one of embeddings, features and error set, and with an error
    neither of the other two; what it raises is the 400 of a name outside
    the registry, with the state untouched, or the user's interrupt.  An
    exception of its [try] block that is an [Exception] and not an
    [HTTPException] becomes a returned response (status 200) carrying
    [str(e)] as [error]; so do a failing load and a failing pipeline call. *)
Theorem predict_reports_failures_in_body (E : Engine)
    (request : Main.ModelRequest) (s : Main.State E) :
  (match Main.predict request s with
   | (Ok r, _) =>
       populated r = 1
       ∧ (is_set (Main.error r) = true →
          Main.embeddings r = None ∧ Main.features r = None)
   | (Raise e, s') =>
       e = KeyboardInterrupt
       ∨ (e = HTTPException 400
                (Main.unsupported_detail (Main.req_model_name request))
          ∧ dict_contains (Main.req_model_name request) SUPPORTED_MODELS = false
          ∧ s' = s)
   end)
  ∧ (∀ e s1,
        Main.predict_body request s = (Raise e, s1) →
        isinstance_HTTPException e = false →
        isinstance_Exception e = true →
        Main.predict request s = (Ok (Main.error_response request e), s1)
        ∧ Main.http_status (Main.predict request s).1 = Some 200
        ∧ Main.error (Main.error_response (E:=E) request e) = Some (str_exn e))
  ∧ (∀ e s1,
        dict_contains (Main.req_model_name request) SUPPORTED_MODELS = true →
        Main.download_and_cache_model (Main.req_model_name request) s
          = (Raise e, s1) →
        isinstance_Exception e = true →
        Main.predict request s = (Ok (Main.error_response request e), s1))
  ∧ (∀ data s1 h e s2,
        dict_contains (Main.req_model_name request) SUPPORTED_MODELS = true →
        Main.download_and_cache_model (Main.req_model_name request) s
          = (Ok data, s1) →
        data !! "pipeline" = Some h →
        Main.req_task request = "feature-extraction" →
        Main.call_handle h (Main.req_text request) s1 = (Raise e, s2) →
        isinstance_Exception e = true →
        Main.predict request s = (Ok (Main.error_response request e), s2)).
Proof.
  split_and!.
  - destruct (dict_contains (Main.req_model_name request) SUPPORTED_MODELS) eqn:Hc.
    + rewrite predict_eq.
      destruct (Main.predict_body request s) as [[r|e] s'] eqn:Hb.
      * apply predict_body_returns in Hb as [Hp He]; [|done].
        split; [done|]. by rewrite He.
      * pose proof (predict_body_raises _ _ _ _ Hc Hb) as Hx.
        rewrite (engine_exn_not_http e Hx).
        destruct (engine_exn_cases e Hx) as [(cls & msg & ->)| ->]; cbn; auto.
    + rewrite predict_unsupported by done. auto.
  - intros e s1 Hb Hh He. by rewrite (predict_catches request s e s1).
  - intros e s1 Hc Hd He.
    pose proof (download_and_cache_model_raises _ _ _ _ Hd) as [Hx _].
    apply predict_catches; [|by apply engine_exn_not_http|done].
    rewrite predict_body_supported by done. by rewrite Hd.
  - intros data s1 h e s2 Hc Hd Hp Ht Hcall He.
    pose proof (call_handle_raises _ _ _ _ _ Hcall) as Hx.
    apply predict_catches; [|by apply engine_exn_not_http|done].
    rewrite predict_body_supported by done. rewrite Hd, Hp.
    rewrite bool_decide_eq_true_2 by done. by rewrite Hcall.
Qed.

Lemma predict_reports_failures_in_body_witness :
  let request := Main.mkRequest "Hello world" "bert-base-uncased" "feature-extraction" in
  let s := Main.initial (E:=Mock.flaky) Mock.fresh_online in
  ∃ s2, Main.predict request s
        = (Ok (Main.mkResponse "bert-base-uncased" "Hello world" "feature-extraction"
                 None None (Some "out of memory")), s2).
Proof.
  intros request s.
  destruct (predict_reports_failures_in_body Mock.flaky request s)
    as (_ & Hcatch & _ & _).
  eexists.
  refine (proj1 (Hcatch (PyException "RuntimeError" "out of memory") _ _ _ _));
    reflexivity.
Defined.

Lemma validate_embeddings_batched {A} (v : list (nested A))
    (vectors : list (list (nested A))) :
  validate_embeddings (Nest [Nest (Nest v :: (Nest <$> vectors))]) = None.
Proof. reflexivity. Qed.

(** C6: the claim has a ["feature-extraction"] request whose engine call
    succeeds answered with [embeddings] set and [error] unset.  In a state
    the process reaches, for a registry name, when the load returns and the
    pipeline returns a value, [POST /predict] returns (status 200) a
    response without features whose [embeddings] are the value when it is a
    list of lists of numbers, and which otherwise has no embeddings and
    carries the validation error as [error].  The second is the case
    whenever the pipeline answers as a batch of one text, a list holding one
    list of token vectors, with at least one token. *)
Theorem predict_feature_extraction_checks_shape (E : Engine)
    (request : Main.ModelRequest) (s s1 : Main.State E)
    (data : gmap string (Handle E)) (value : nested (Num E)) (w2 : World E) :
  reachable s →
  dict_contains (Main.req_model_name request) SUPPORTED_MODELS = true →
  Main.req_task request = "feature-extraction" →
  Main.download_and_cache_model (Main.req_model_name request) s = (Ok data, s1) →
  (∀ p, data !! "pipeline" = Some (HPipeline p) →
        pipeline_call E p (Main.req_text request) (world (Main.sys s1))
          = (Returned value, w2)) →
  ∃ r s2,
    Main.predict request s = (Ok r, s2)
    ∧ Main.http_status (Main.predict request s).1 = Some 200
    ∧ Main.features r = None
    ∧ match validate_embeddings value with
      | Some rows => Main.embeddings r = Some rows ∧ Main.error r = None
      | None =>
          Main.embeddings r = None
          ∧ Main.error r = Some (validation_error E value)
      end
    ∧ (∀ v vectors,
          value = Nest [Nest (Nest v :: (Nest <$> vectors))] →
          Main.embeddings r = None
          ∧ Main.error r = Some (validation_error E value)).
Proof.
  intros Hs Hc Ht Hd Hcall.
  pose proof (download_and_cache_model_complete _ _ _ _
                (reachable_cache_complete s Hs) Hd) as (t & m & p & _ & _ & Hp).
  specialize (Hcall p Hp).
  assert (Main.predict_body request s
          = match validate_embeddings value with
            | Some rows =>
                (Ok (Main.mkResponse (Main.req_model_name request)
                       (Main.req_text request) (Main.req_task request)
                       (Some rows) None None),
                 Main.mkState (Main.model_cache s1)
                   (mkSys w2 (calls (Main.sys s1)
                              ++ [CallPipelineRun (Main.req_text request)])%list))
            | None =>
                (Raise (PyException "ValidationError" (validation_error E value)),
                 Main.mkState (Main.model_cache s1)
                   (mkSys w2 (calls (Main.sys s1)
                              ++ [CallPipelineRun (Main.req_text request)])%list))
            end) as Hb.
  { rewrite predict_body_supported by done. rewrite Hd, Hp.
    rewrite bool_decide_eq_true_2 by done.
    cbn [Main.call_handle]. unfold Main.lift, engine_call. by rewrite Hcall. }
  rewrite predict_eq, Hb.
  destruct (validate_embeddings value) as [rows|] eqn:Hv.
  - eexists _, _. split_and!; try done.
    intros v vectors ->. by rewrite validate_embeddings_batched in Hv.
  - eexists _, _. cbn. split_and!; done.
Qed.

Lemma predict_feature_extraction_checks_shape_witness :
  let request := Main.mkRequest "Hi" "bert-base-uncased" "feature-extraction" in
  let s := Main.initial (E:=mock_batched) Mock.fresh_online in
  (Main.predict request s).1
  = Ok (Main.mkResponse (E:=mock_batched) "bert-base-uncased" "Hi"
          "feature-extraction" None None
          (Some "validation error for ModelResponse"))
  ∧ ∃ r s2, Main.predict request s = (Ok r, s2)
            ∧ Main.embeddings r = None
            ∧ Main.error r = Some "validation error for ModelResponse".
Proof.
  intros request s. split; [reflexivity|].
  destruct (predict_feature_extraction_checks_shape mock_batched request s
              (Main.download_and_cache_model "bert-base-uncased" s).2
              (Main.new_entry (E:=mock_batched)
                 "bert-base-uncased" "bert-base-uncased" "bert-base-uncased")
              (Nest [Nest [Nest [Scalar 1%Z; Scalar 0%Z];
                           Nest [Scalar 1%Z; Scalar 0%Z]]])
              (world (Main.sys (Main.download_and_cache_model "bert-base-uncased" s).2)))
    as (r & s2 & Hp & _ & _ & _ & Hbatch).
  - exists Mock.fresh_online, []. reflexivity.
  - reflexivity.
  - reflexivity.
  - reflexivity.
  - intros p _. reflexivity.
  - destruct (Hbatch [Scalar 1%Z; Scalar 0%Z] [[Scalar 1%Z; Scalar 0%Z]] eq_refl)
      as [He Herr].
    exists r, s2. split; [exact Hp|]. split; [exact He|exact Herr].
Defined.

(** C7: in a state the process reaches, for a registry name and a task other
    than ["feature-extraction"], when the load returns and the tokenizer
    returns the tokens of the text, [POST /predict] returns a response whose
    [features] map [num_tokens] to the number of tokens, [tokens] to the
    first 50 of them (all of them when there are fewer) and [text_length] to
    the length of the text, with [embeddings] and [error] unset. *)
Theorem predict_other_task_features (E : Engine)
    (request : Main.ModelRequest) (s s1 : Main.State E)
    (data : gmap string (Handle E)) (tokens : list string) (w2 : World E) :
  reachable s →
  dict_contains (Main.req_model_name request) SUPPORTED_MODELS = true →
  Main.req_task request ≠ "feature-extraction" →
  Main.download_and_cache_model (Main.req_model_name request) s = (Ok data, s1) →
  (∀ t, data !! "tokenizer" = Some (HTokenizer t) →
        tokenizer_tokenize E t (Main.req_text request) (world (Main.sys s1))
          = (Returned tokens, w2)) →
  ∃ r s2 f,
    Main.predict request s = (Ok r, s2)
    ∧ Main.http_status (Main.predict request s).1 = Some 200
    ∧ Main.features r = Some f
    ∧ f !! "num_tokens" = Some (Main.VInt (length tokens))
    ∧ f !! "tokens" = Some (Main.VStrList (take 50 tokens))
    ∧ length (take 50 tokens) = min 50 (length tokens)
    ∧ take 50 tokens `prefix_of` tokens
    ∧ f !! "text_length" = Some (Main.VInt (String.length (Main.req_text request)))
    ∧ Main.embeddings r = None
    ∧ Main.error r = None.
Proof.
  intros Hs Hc Ht Hd Hcall.
  pose proof (download_and_cache_model_complete _ _ _ _
                (reachable_cache_complete s Hs) Hd) as (t & m & p & Htk & _ & Hp).
  specialize (Hcall t Htk).
  assert (Main.predict_body request s
          = (Ok (Main.mkResponse (Main.req_model_name request)
                   (Main.req_text request) (Main.req_task request) None
                   (Some (Main.features_dict tokens (Main.req_text request))) None),
             Main.mkState (Main.model_cache s1)
               (mkSys w2 (calls (Main.sys s1)
                          ++ [CallTokenize (Main.req_text request)])%list)))
    as Hb.
  { rewrite predict_body_supported by done. rewrite Hd, Hp, Htk.
    rewrite bool_decide_eq_false_2 by done.
    cbn [Main.tokenize_handle]. unfold Main.lift, engine_call. by rewrite Hcall. }
  eexists _, _, _. rewrite predict_eq, Hb. split_and!; try done.
  - apply length_take.
  - apply prefix_take.
Qed.

Lemma predict_other_task_features_witness :
  let txt := "The quick brown fox jumps over the lazy dog, twice over." in
  let request := Main.mkRequest txt "albert-base-v2" "tokenize" in
  let s := Main.initial (E:=Mock.engine) Mock.fresh_online in
  ∃ r s2 f, Main.predict request s = (Ok r, s2)
            ∧ Main.features r = Some f
            ∧ f !! "num_tokens" = Some (Main.VInt 56)
            ∧ f !! "tokens" = Some (Main.VStrList (take 50 (Mock.chars txt)))
            ∧ length (take 50 (Mock.chars txt)) = 50
            ∧ f !! "text_length" = Some (Main.VInt 56).
Proof.
  intros txt request s.
  destruct (predict_other_task_features Mock.engine request s
              (Main.download_and_cache_model "albert-base-v2" s).2
              (Mock.entry "albert-base-v2") (Mock.chars txt)
              (world (Main.sys (Main.download_and_cache_model "albert-base-v2" s).2)))
    as (r & s2 & f & Hp & _ & Hf & Hn & Ht & Hl & _ & Hx & _).
  - exists Mock.fresh_online, []. reflexivity.
  - reflexivity.
  - discriminate.
  - reflexivity.
  - intros t _. reflexivity.
  - exists r, s2, f. split; [exact Hp|]. split; [exact Hf|].
    split; [exact Hn|]. split; [exact Ht|]. split; [exact Hl|exact Hx].
Defined.

(** ** Local first, then remote *)

Section LocalThenRemote.
Context {E : Engine}.
Implicit Types (y : Sys E).

Lemma load_steps_first_call p c l y :
  ∃ cs, calls (load_steps p c l y).2
        = (calls y ++ CallTokenizerFromPretrained p c l :: cs)%list.
Proof.
  unfold load_steps, bind, engine_call at 1.
  destruct (AutoTokenizer_from_pretrained E p c l (world y)) as [[t|cls msg|] w1];
    cbn [res_of_outcome]; [|by exists []..].
  unfold engine_call at 1; cbn [world calls].
  destruct (AutoModel_from_pretrained E p c l w1) as [[m|cls msg|] w2];
    cbn [res_of_outcome].
  2,3: eexists; cbn; by rewrite <- (assoc_L (++)).
  unfold torch_cuda_is_available, engine_call; cbn [world calls].
  destruct (pipeline E _ m t _ w2) as [[q|cls msg|] w3];
    cbn; eexists; by rewrite <- !(assoc_L (++)).
Qed.

(** A load that returns made its three calls, each of which returned. *)
Lemma load_steps_returns p c l y t m q y' :
  load_steps p c l y = (Ok (t, m, q), y') →
  ∃ w1 w2,
    AutoTokenizer_from_pretrained E p c l (world y) = (Returned t, w1)
    ∧ AutoModel_from_pretrained E p c l w1 = (Returned m, w2)
    ∧ pipeline E "feature-extraction" m t
        (select_device (cuda_is_available E w2)) w2 = (Returned q, world y')
    ∧ calls y' = (calls y
                  ++ [CallTokenizerFromPretrained p c l;
                      CallModelFromPretrained p c l;
                      CallPipeline "feature-extraction"
                        (select_device (cuda_is_available E w2))])%list.
Proof.
  unfold load_steps, bind, engine_call at 1.
  destruct (AutoTokenizer_from_pretrained E p c l (world y))
    as [[t0|cls msg|] w1] eqn:Ht; cbn [res_of_outcome]; try done.
  unfold engine_call at 1; cbn [world calls].
  destruct (AutoModel_from_pretrained E p c l w1)
    as [[m0|cls msg|] w2] eqn:Hm; cbn [res_of_outcome]; try done.
  unfold torch_cuda_is_available, engine_call; cbn [world calls].
  destruct (pipeline E _ m0 t0 _ w2) as [[q0|cls msg|] w3] eqn:Hp;
    cbn; try done.
  intros [= <- <- <- <-]. exists w1, w2. cbn.
  split_and!; try done. by rewrite <- !(assoc_L (++)).
Qed.

(** The storage path and the remote identifier of a registry name. *)
Lemma registry_entry name model_id :
  dict_get name SUPPORTED_MODELS = Some model_id →
  os_path_join MODELS_DIR name = "./models/" ++ name ∧ model_id = name.
Proof.
  unfold SUPPORTED_MODELS. cbn [dict_get].
  repeat (case_decide; [subst name; intros [= <-]; done|]). done.
Qed.

(** With the storage contract, the files of a remote load that returned
    are found by the local-only loads of the same directory. *)
Lemma remote_then_local (C : storage_contract (E:=E)) model_id dir y h y' :
  load_steps model_id (Some dir) false y = (Ok h, y') →
  ∃ t w1 m w2,
    AutoTokenizer_from_pretrained E dir None true (world y') = (Returned t, w1)
    ∧ AutoModel_from_pretrained E dir None true w1 = (Returned m, w2).
Proof.
  destruct h as [[t m] q]. intros (w1 & w2 & Ht & Hm & Hp & _)%load_steps_returns.
  pose proof (remote_tokenizer_stores C _ _ _ _ _ Ht) as Hts.
  pose proof (remote_model_stores C _ _ _ _ _ Hm) as Hms.
  apply (model_load_keeps C dir) in Hm as [Hk _]. apply Hk in Hts.
  apply (pipeline_keeps C dir) in Hp as [Hkt Hkm].
  apply Hkt in Hts. apply Hkm in Hms.
  destruct (local_tokenizer_loads C _ _ Hts) as (t' & w3 & Hl).
  apply (tokenizer_load_keeps C dir) in Hl as Hk3. destruct Hk3 as [_ Hk3].
  destruct (local_model_loads C _ _ (Hk3 Hms)) as (m' & w4 & Hl').
  by exists t', w3, m', w4.
Qed.

End LocalThenRemote.

(** C2: for a registry name with no cache entry, [download_and_cache_model]
    begins with a local-only load from the model's own directory under
    [./models]; when that attempt returns, its handles are cached and no
    remote load follows; when it raises an [Exception], whatever its class
    and message, the call goes on as the remote load under the registry's
    identifier with that same directory as [cache_dir]; and when the engine
    keeps its storage contract, after a remote load that returned the
    local-only loads of the tokenizer and of the model from that directory
    return. *)
Theorem load_is_local_then_remote (E : Engine) (C : storage_contract (E:=E))
    (name model_id : string) (s : Main.State E) :
  dict_get name SUPPORTED_MODELS = Some model_id →
  Main.model_cache s !! name = None →
  let dir := os_path_join MODELS_DIR name in
  dir = "./models/" ++ name
  ∧ (∃ cs, calls (Main.sys (Main.download_and_cache_model name s).2)
           = (calls (Main.sys s)
              ++ CallTokenizerFromPretrained dir None true :: cs)%list)
  ∧ (∀ t m p y1,
        load_steps dir None true (Main.sys s) = (Ok (t, m, p), y1) →
        Main.download_and_cache_model name s
        = (Ok (Main.new_entry t m p),
           Main.mkState (<[name := Main.new_entry t m p]> (Main.model_cache s)) y1))
  ∧ (∀ cls msg y1,
        load_steps dir None true (Main.sys s) = (Raise (PyException cls msg), y1) →
        Main.download_and_cache_model name s
        = match load_steps model_id (Some dir) false y1 with
          | (Ok (t, m, p), y2) =>
              (Ok (Main.new_entry t m p),
               Main.mkState (<[name := Main.new_entry t m p]> (Main.model_cache s)) y2)
          | (Raise e, y2) => (Raise e, Main.mkState (Main.model_cache s) y2)
          end
        ∧ ∃ cs, calls (load_steps model_id (Some dir) false y1).2
                = (calls y1
                   ++ CallTokenizerFromPretrained model_id (Some dir) false :: cs)%list)
  ∧ (∀ cls msg y1 h y2,
        load_steps dir None true (Main.sys s) = (Raise (PyException cls msg), y1) →
        load_steps model_id (Some dir) false y1 = (Ok h, y2) →
        ∃ t w1 m w2,
          AutoTokenizer_from_pretrained E dir None true (world y2) = (Returned t, w1)
          ∧ AutoModel_from_pretrained E dir None true w1 = (Returned m, w2)).
Proof.
  intros Hg Hc dir. split_and!.
  - by apply registry_entry in Hg as [? _].
  - rewrite download_and_cache_model_eq, Hc, Hg. unfold load_handles.
    destruct (load_steps_first_call dir None true (Main.sys s)) as [cs Hcs].
    fold dir. destruct (load_steps dir None true (Main.sys s)) as [[[[t m] p]|e] y1];
      cbn [snd] in Hcs.
    + by exists cs.
    + destruct (isinstance_Exception e); [|by exists cs].
      destruct (load_steps_first_call model_id (Some dir) false y1) as [cs' Hcs'].
      rewrite Hcs in Hcs'.
      destruct (load_steps model_id (Some dir) false y1) as [[[[t m] p]|e'] y2];
        cbn [snd Main.sys] in *; eexists; rewrite Hcs', <- (assoc_L (++)); done.
  - intros t m p y1 Hl.
    rewrite download_and_cache_model_eq, Hc, Hg. unfold load_handles.
    fold dir. by rewrite Hl.
  - intros cls msg y1 Hl. split; [|apply load_steps_first_call].
    rewrite download_and_cache_model_eq, Hc, Hg. unfold load_handles.
    fold dir. by rewrite Hl.
  - intros cls msg y1 h y2 _ Hr. by eapply remote_then_local.
Qed.

(** The test double keeps the storage contract. *)
Lemma mock_storage_contract : storage_contract (E:=Mock.engine).
Proof.
  refine (@Build_storage_contract Mock.engine
            (λ dir (w : Mock.world), dir ∈ Mock.tokenizer_files w)
            (λ dir (w : Mock.world), dir ∈ Mock.model_files w)
            _ _ _ _ _ _ _); cbn.
  - intros id dir w t w'. unfold Mock.tokenizer_from_pretrained.
    destruct (Mock.online w); intros [= <- <-]; cbn; by left.
  - intros id dir w m w'. unfold Mock.model_from_pretrained.
    destruct (Mock.online w); intros [= <- <-]; cbn; by left.
  - intros dir p c l w o w'. unfold Mock.tokenizer_from_pretrained.
    destruct l; [case_bool_decide|destruct (Mock.online w)];
      intros [= <- <-]; cbn; try done.
    split; [|done]. destruct c; cbn; [by right|done].
  - intros dir p c l w o w'. unfold Mock.model_from_pretrained.
    destruct l; [case_bool_decide|destruct (Mock.online w)];
      intros [= <- <-]; cbn; try done.
    split; [done|]. destruct c; cbn; [by right|done].
  - intros dir k m t d w o w' [= <- <-]. done.
  - intros dir w H. unfold Mock.tokenizer_from_pretrained.
    rewrite bool_decide_eq_true_2 by done. eauto.
  - intros dir w H. unfold Mock.model_from_pretrained.
    rewrite bool_decide_eq_true_2 by done. eauto.
Qed.

Lemma load_is_local_then_remote_witness :
  let s := Main.initial (E:=Mock.engine) Mock.fresh_online in
  let r := Main.download_and_cache_model "roberta-base" s in
  calls (Main.sys r.2)
  = [ CallTokenizerFromPretrained "./models/roberta-base" None true;
      CallTokenizerFromPretrained "roberta-base" (Some "./models/roberta-base") false;
      CallModelFromPretrained "roberta-base" (Some "./models/roberta-base") false;
      CallPipeline "feature-extraction" (-1) ]
  ∧ ∃ t w1 m w2,
      Mock.tokenizer_from_pretrained "./models/roberta-base" None true
        (world (Main.sys r.2)) = (Returned t, w1)
      ∧ Mock.model_from_pretrained "./models/roberta-base" None true w1
        = (Returned m, w2).
Proof.
  intros s r.
  destruct (load_is_local_then_remote Mock.engine mock_storage_contract
              "roberta-base" "roberta-base" s eq_refl eq_refl)
    as (_ & _ & _ & _ & Hstore).
  split; [reflexivity|].
  apply (Hstore "OSError" "Can't load tokenizer for './models/roberta-base'"
           (load_steps (E:=Mock.engine) "./models/roberta-base" None true (Main.sys s)).2
           ("roberta-base", "roberta-base", "roberta-base")
           (Main.sys r.2));
    reflexivity.
Defined.

(** ** The bulk downloader *)

Section Downloader.
Context {E : Engine}.
Implicit Types (s : DownloadModels.State E).

Lemma download_model_eq model_name model_id s :
  DownloadModels.download_model model_name model_id s =
  match load_steps model_id (Some (os_path_join MODELS_DIR model_name)) false
          (DownloadModels.sys s) with
  | (Ok (t, m, p), y) =>
      (Ok (DownloadModels.handles t m p),
       DownloadModels.mkState (DownloadModels.stdout s) y)
  | (Raise e, y) => (Raise e, DownloadModels.mkState (DownloadModels.stdout s) y)
  end.
Proof.
  unfold DownloadModels.download_model, try_except, bind, DownloadModels.lift.
  destruct (load_steps _ _ _ _) as [[[[t m] p]|e] y] eqn:Hl; [done|].
  apply load_steps_raises in Hl. by destruct e.
Qed.

(** The loop: unless an interrupt cuts it short it goes through every
    item, printing its line, and adds exactly the failures to the list. *)
Lemma download_loop_spec total i items failed s :
  match DownloadModels.download_loop total i items failed s with
  | (Ok failed', s') =>
      failed' = (failed ++ DownloadModels.failures items (DownloadModels.sys s))%list
      ∧ DownloadModels.stdout s'
        = (DownloadModels.stdout s
           ++ DownloadModels.processing_lines total i items)%list
  | (Raise e, _) => e = KeyboardInterrupt
  end.
Proof.
  revert i failed s. induction items as [|[name id] rest IH]; intros i failed s.
  - cbn. by rewrite !(right_id_L [] (++)).
  - cbn [DownloadModels.download_loop DownloadModels.failures
         DownloadModels.processing_lines].
    unfold bind at 1, try_except, bind at 1, DownloadModels.print at 1.
    unfold bind at 1. rewrite download_model_eq. cbn [DownloadModels.sys].
    destruct (load_steps _ _ _ _) as [[[[t m] p]|e] y] eqn:Hl.
    + unfold ret at 1.
      specialize (IH (S i) failed
        (DownloadModels.mkState
           (DownloadModels.stdout s ++ [DownloadModels.LProcessing i total name]) y)).
      destruct (DownloadModels.download_loop _ _ _ _ _) as [[failed'|e'] s'];
        [|done].
      cbn [DownloadModels.sys DownloadModels.stdout] in IH.
      destruct IH as [-> ->]. by rewrite <- (assoc_L (++)).
    + apply load_steps_raises in Hl.
      destruct e as [cls msg| | |]; try done; cbn [select_clause isinstance_Exception].
      unfold ret at 1.
      specialize (IH (S i) (failed ++ [(name, str_exn (PyException cls msg))])%list
        (DownloadModels.mkState
           (DownloadModels.stdout s ++ [DownloadModels.LProcessing i total name]) y)).
      destruct (DownloadModels.download_loop _ _ _ _ _) as [[failed'|e'] s'];
        [|done].
      cbn [DownloadModels.sys DownloadModels.stdout] in IH.
      destruct IH as [-> ->]. by rewrite <- !(assoc_L (++)).
Qed.

Lemma print_all_eq ls s :
  DownloadModels.print_all ls s =
  (Ok (), DownloadModels.mkState (DownloadModels.stdout s ++ ls)
            (DownloadModels.sys s)).
Proof.
  revert s. induction ls as [|l ls IH]; intros s.
  - cbn. rewrite (right_id_L [] (++)). by destruct s.
  - cbn [DownloadModels.print_all]. unfold bind, DownloadModels.print at 1.
    rewrite IH. cbn. by rewrite <- (assoc_L (++)).
Qed.

Lemma ensure_models_directory_stdout s :
  DownloadModels.stdout (DownloadModels.ensure_models_directory s).2
  = DownloadModels.stdout s.
Proof.
  unfold DownloadModels.ensure_models_directory, bind, DownloadModels.lift,
    path_exists.
  destruct (negb _); [|done].
  by destruct (engine_call _ _ _) as [[?|?] ?].
Qed.

(** The whole run: it returns with the report printed, or it was
    interrupted, or the storage directory could not be made. *)
Lemma download_all_models_over_spec registry s :
  match DownloadModels.download_all_models_over registry s with
  | (Ok _, s') =>
      ∃ s0, DownloadModels.ensure_models_directory s = (Ok (), s0)
            ∧ DownloadModels.stdout s'
              = (DownloadModels.stdout s
                 ++ [DownloadModels.LBanner (length registry)
                       (cuda_is_available E (world (DownloadModels.sys s0)))]
                 ++ DownloadModels.processing_lines (length registry) 1 registry
                 ++ DownloadModels.summary (length registry)
                      (DownloadModels.failures registry (DownloadModels.sys s0)))%list
  | (Raise e, _) =>
      e = KeyboardInterrupt
      ∨ (DownloadModels.ensure_models_directory s).1 = Raise e
  end.
Proof.
  unfold DownloadModels.download_all_models_over. unfold bind at 1.
  pose proof (ensure_models_directory_stdout s) as Hout.
  destruct (DownloadModels.ensure_models_directory s) as [[[]|e] s0];
    [|by right].
  cbn [snd] in Hout.
  unfold bind at 1, DownloadModels.lift, torch_cuda_is_available.
  unfold bind at 1, DownloadModels.print at 1. unfold bind at 1.
  pose proof (download_loop_spec (length registry) 1 registry []
    (DownloadModels.mkState
       (DownloadModels.stdout s0
        ++ [DownloadModels.LBanner (length registry)
              (cuda_is_available E (world (DownloadModels.sys s0)))])
       (DownloadModels.sys s0))) as Hloop.
  cbn [DownloadModels.sys DownloadModels.stdout] in *.
  destruct (DownloadModels.download_loop _ _ _ _ _) as [[failed|e] s1];
    [|by left].
  destruct Hloop as [-> Hs1]. rewrite print_all_eq. exists s0.
  split; [done|]. cbn [DownloadModels.stdout].
  rewrite Hs1, Hout. cbn [app]. by rewrite <- !(assoc_L (++)).
Qed.


End Downloader.



(** * Further properties of the code *)

(** ** The listings and the count *)

Section Counting.
Context {E : Engine}.
Implicit Types (s : Main.State E).

Lemma registry_keys_nodup : NoDup (dict_keys SUPPORTED_MODELS).
Proof. apply (bool_decide_unpack _). reflexivity. Qed.

Lemma cache_size_bound s :
  cache_in_registry s →
  (size (Main.model_cache s) ≤ length SUPPORTED_MODELS)%nat.
Proof.
  intros Hinv. rewrite <- size_dom.
  transitivity (size (list_to_set (C:=gset string) (dict_keys SUPPORTED_MODELS))).
  - apply subseteq_size. intros name Hin. apply elem_of_list_to_set.
    apply Hinv. by apply elem_of_dom.
  - rewrite size_list_to_set by apply registry_keys_nodup.
    unfold dict_keys. by rewrite length_fmap.
Qed.

End Counting.

(** X1: [GET /models] and [GET /health] agree in every state: the
    [loaded_models] list has no name twice and as many names as
    [models_loaded] says, and a name is in the list exactly when the cache
    has an entry for it. *)
Theorem listing_agrees_with_health (E : Engine) (s : Main.State E) :
  ∃ info h,
    Main.list_models s = (Ok info, s)
    ∧ Main.health_check s = (Ok h, s)
    ∧ NoDup (Main.loaded_models info)
    ∧ length (Main.loaded_models info) = Main.models_loaded h
    ∧ (∀ name, name ∈ Main.loaded_models info
               ↔ is_Some (Main.model_cache s !! name)).
Proof.
  eexists _, _. split; [apply list_models_eq|]. split; [apply health_check_eq|].
  cbn [Main.loaded_models Main.models_loaded]. split_and!.
  - apply NoDup_fst_map_to_list.
  - by rewrite length_fmap, length_map_to_list.
  - intros name. apply elem_of_loaded_models.
Qed.

Lemma listing_agrees_with_health_witness :
  let s := Main.serve [Main.PostLoadModel "roberta-base";
                       Main.PostLoadModel "albert-base-v1";
                       Main.PostLoadModel "roberta-base"]
             (Main.initial (E:=Mock.engine) Mock.fresh_online) in
  (Main.health_check s).1 = Ok (Main.mkHealth "healthy" 2 false)
  ∧ ∃ info h, Main.list_models s = (Ok info, s)
              ∧ Main.health_check s = (Ok h, s)
              ∧ NoDup (Main.loaded_models info)
              ∧ length (Main.loaded_models info) = Main.models_loaded h.
Proof.
  intros s. split; [reflexivity|].
  destruct (listing_agrees_with_health Mock.engine s)
    as (info & h & Hl & Hh & Hnd & Hlen & _).
  exists info, h. split; [exact Hl|]. split; [exact Hh|].
  split; [exact Hnd|exact Hlen].
Defined.

(** X2: in every state the process reaches the cache holds at most as many
    models as the registry has names, six: the count [GET /health] reports
    never exceeds 6. *)
Theorem models_loaded_at_most_six (E : Engine) (s : Main.State E) :
  reachable s →
  ∃ h, Main.health_check s = (Ok h, s) ∧ (Main.models_loaded h ≤ 6)%nat.
Proof.
  intros Hs. eexists. split; [apply health_check_eq|].
  cbn [Main.models_loaded].
  apply (cache_size_bound s), reachable_cache_in_registry, Hs.
Qed.

Lemma models_loaded_at_most_six_witness :
  let s := Main.serve
             ((λ name, Main.PostLoadModel name)
                <$> (dict_keys SUPPORTED_MODELS ++ ["gpt2"; "roberta-base"])%list)
             (Main.initial (E:=Mock.engine) Mock.fresh_online) in
  (Main.health_check s).1 = Ok (Main.mkHealth "healthy" 6 false)
  ∧ ∃ h, Main.health_check s = (Ok h, s) ∧ (Main.models_loaded h ≤ 6)%nat.
Proof.
  intros s. split; [reflexivity|].
  apply (models_loaded_at_most_six Mock.engine s).
  eexists Mock.fresh_online, _. reflexivity.
Defined.

(** ** Engine traffic of a load *)

Section Traffic.
Context {E : Engine}.
Implicit Types (s : Main.State E) (y : Sys E) (name : string).

Lemma load_call_matches_load p c l k :
  load_call_matches p c l k = true → is_load_call k = true.
Proof. by destruct k. Qed.

Lemma load_call_matches_local p c k :
  load_call_matches p c true k = true → is_remote_call k = false.
Proof.
  destruct k as [p' c' l'|p' c' l'| | | |]; try done;
    cbn; intros (_ & _ & ->)%bool_decide_eq_true; done.
Qed.


(** The calls of the three steps: between one and three, each made with the
    arguments of the load. *)
Lemma load_steps_calls p c l y :
  ∃ cs, calls (load_steps p c l y).2 = (calls y ++ cs)%list
        ∧ (1 ≤ length cs ≤ 3)%nat
        ∧ Forall (λ k, load_call_matches p c l k = true) cs.
Proof.
  assert (∀ d, load_call_matches p c l
                 (CallPipeline "feature-extraction" (select_device d)) = true)
    as Hpipe by (intros []; by apply bool_decide_eq_true_2; auto).
  assert (load_call_matches p c l (CallTokenizerFromPretrained p c l) = true)
    as Htok by (by apply bool_decide_eq_true_2).
  assert (load_call_matches p c l (CallModelFromPretrained p c l) = true)
    as Hmod by (by apply bool_decide_eq_true_2).
  unfold load_steps, bind, engine_call at 1.
  destruct (AutoTokenizer_from_pretrained E p c l (world y)) as [[t|cls msg|] w1];
    cbn [res_of_outcome].
  2,3: (eexists [_]; cbn [snd calls length]; split_and!; [done|lia|lia|auto]).
  unfold engine_call at 1; cbn [world calls].
  destruct (AutoModel_from_pretrained E p c l w1) as [[m|cls msg|] w2];
    cbn [res_of_outcome].
  2,3: (eexists [_; _]; cbn [snd calls length]; split_and!;
        [by rewrite <- (assoc_L (++))|lia|lia|auto]).
  unfold torch_cuda_is_available, engine_call; cbn [world calls].
  destruct (pipeline E _ m t _ w2) as [[q|cls msg|] w3];
    cbn [res_of_outcome ret snd calls];
    (eexists [_; _; _]; cbn [length]; split_and!;
     [by rewrite <- !(assoc_L (++))|lia|lia|auto]).
Qed.

Lemma load_handles_calls name model_id y :
  ∃ cs, calls (load_handles name model_id y).2 = (calls y ++ cs)%list
        ∧ (length cs ≤ 6)%nat
        ∧ Forall (λ k, is_load_call k = true) cs.
Proof.
  unfold load_handles.
  destruct (load_steps_calls (os_path_join MODELS_DIR name) None true y)
    as (cs1 & H1 & [_ Hl1] & Hf1).
  assert (Forall (λ k, is_load_call k = true) cs1) as Hf1'
    by (eapply Forall_impl; [exact Hf1|]; apply load_call_matches_load).
  destruct (load_steps _ None true y) as [[h|e] y1]; cbn [snd] in H1.
  - exists cs1. split_and!; [done|lia|done].
  - destruct (isinstance_Exception e).
    + destruct (load_steps_calls model_id
                  (Some (os_path_join MODELS_DIR name)) false y1)
        as (cs2 & H2 & [_ Hl2] & Hf2).
      exists (cs1 ++ cs2)%list. rewrite H2, H1, (assoc_L (++)).
      split_and!; [done|rewrite length_app; lia|].
      apply Forall_app. split; [done|].
      eapply Forall_impl; [exact Hf2|]. apply load_call_matches_load.
    + exists cs1. split_and!; [done|lia|done].
Qed.

Lemma download_and_cache_model_calls name s :
  ∃ cs, calls (Main.sys (Main.download_and_cache_model name s).2)
        = (calls (Main.sys s) ++ cs)%list
        ∧ (length cs ≤ 6)%nat
        ∧ Forall (λ k, is_load_call k = true) cs
        ∧ (is_Some (Main.model_cache s !! name)
           ∨ dict_contains name SUPPORTED_MODELS = false → cs = []).
Proof.
  rewrite download_and_cache_model_eq.
  destruct (Main.model_cache s !! name) as [entry|] eqn:Hc.
  { exists []. rewrite (right_id_L [] (++)). split_and!; auto. cbn; lia. }
  destruct (dict_get name SUPPORTED_MODELS) as [model_id|] eqn:Hg.
  - destruct (load_handles_calls name model_id (Main.sys s))
      as (cs & Hcs & Hl & Hf).
    exists cs. split_and!; try done.
    + by destruct (load_handles _ _ _) as [[[[t m] p]|e] y1].
    + intros [[? ?]|Hn]; [done|].
      apply dict_contains_false in Hn. congruence.
  - exists []. rewrite (right_id_L [] (++)). split_and!; auto. cbn; lia.
Qed.

(** On a miss for a registry name the calls begin with the local-only load
    of the tokenizer from the model's directory. *)
Lemma download_and_cache_model_first_call name model_id s :
  dict_get name SUPPORTED_MODELS = Some model_id →
  Main.model_cache s !! name = None →
  ∃ cs, calls (Main.sys (Main.download_and_cache_model name s).2)
        = (calls (Main.sys s)
           ++ CallTokenizerFromPretrained (os_path_join MODELS_DIR name) None true
              :: cs)%list.
Proof.
  intros Hg Hc. rewrite download_and_cache_model_eq, Hc, Hg. unfold load_handles.
  destruct (load_steps_first_call (os_path_join MODELS_DIR name) None true
              (Main.sys s)) as [cs Hcs].
  destruct (load_steps _ None true (Main.sys s)) as [[[[t m] p]|e] y1];
    cbn [snd] in Hcs.
  - by exists cs.
  - destruct (isinstance_Exception e); [|by exists cs].
    destruct (load_steps_calls model_id (Some (os_path_join MODELS_DIR name))
                false y1) as (cs' & Hcs' & _).
    rewrite Hcs in Hcs'.
    destruct (load_steps model_id _ false y1) as [[[[t m] p]|e'] y2];
      cbn [snd Main.sys] in *; eexists; rewrite Hcs', <- (assoc_L (++)); done.
Qed.

End Traffic.

(** X3: a load that raised is not remembered.  When
    [download_and_cache_model] raises for a registry name, the next call for
    that name, in the state the failure left, starts the load again with the
    local-only load of the tokenizer from the model's directory. *)
Theorem failed_load_is_retried (E : Engine) (name model_id : string)
    (s s1 : Main.State E) (e : exn) :
  dict_get name SUPPORTED_MODELS = Some model_id →
  Main.download_and_cache_model name s = (Raise e, s1) →
  Main.model_cache s1 !! name = None
  ∧ ∃ cs, calls (Main.sys (Main.download_and_cache_model name s1).2)
          = (calls (Main.sys s1)
             ++ CallTokenizerFromPretrained ("./models/" ++ name) None true
                :: cs)%list.
Proof.
  intros Hg Hd. apply download_and_cache_model_raises in Hd as (_ & Hc & Hn).
  rewrite <- Hc in Hn. split; [done|].
  destruct (registry_entry name model_id Hg) as [<- _].
  by eapply download_and_cache_model_first_call.
Qed.

Lemma failed_load_is_retried_witness :
  let s := Main.initial (E:=Mock.engine) Mock.fresh_offline in
  let r := Main.download_and_cache_model "roberta-large" s in
  r.1 = Raise (PyException "OSError" "We couldn't connect to the hub")
  ∧ length (calls (Main.sys r.2)) = 2
  ∧ length (calls (Main.sys (Main.download_and_cache_model "roberta-large" r.2).2)) = 4
  ∧ ∃ cs, calls (Main.sys (Main.download_and_cache_model "roberta-large" r.2).2)
          = (calls (Main.sys r.2)
             ++ CallTokenizerFromPretrained "./models/roberta-large" None true
                :: cs)%list.
Proof.
  intros s r. split; [reflexivity|]. split; [reflexivity|]. split; [reflexivity|].
  apply (failed_load_is_retried Mock.engine "roberta-large" "roberta-large" s r.2
           (PyException "OSError" "We couldn't connect to the hub"));
    reflexivity.
Defined.

(** X4: the engine traffic of one [download_and_cache_model]: at most six
    calls, all of them loads of a tokenizer or a model or the making of a
    pipeline (never an inference, a tokenisation or a [makedirs]), and none
    at all when the name is in the cache or is not in the registry. *)
Theorem load_makes_at_most_six_calls (E : Engine) (name : string)
    (s : Main.State E) :
  ∃ cs, calls (Main.sys (Main.download_and_cache_model name s).2)
        = (calls (Main.sys s) ++ cs)%list
        ∧ (length cs ≤ 6)%nat
        ∧ Forall (λ k, is_load_call k = true) cs
        ∧ (is_Some (Main.model_cache s !! name)
           ∨ dict_contains name SUPPORTED_MODELS = false → cs = []).
Proof. apply download_and_cache_model_calls. Qed.

Lemma load_makes_at_most_six_calls_witness :
  let s := Main.serve [Main.PostLoadModel "roberta-base"]
             (Main.initial (E:=Mock.flaky) Mock.fresh_online) in
  length (calls (Main.sys s)) = 3
  ∧ calls (Main.sys (Main.download_and_cache_model "gpt2" s).2)
    = calls (Main.sys s).
Proof.
  intros s. split; [reflexivity|].
  destruct (load_makes_at_most_six_calls Mock.flaky "gpt2" s)
    as (cs & Hcs & _ & _ & Hnil).
  rewrite Hcs, Hnil; [apply (right_id_L [] (++))|].
  right. reflexivity.
Defined.

Section Interrupts.
Context {E : Engine}.
Implicit Types (s : Main.State E) (name : string).

Lemma download_and_cache_model_interrupted name model_id s y1 :
  dict_get name SUPPORTED_MODELS = Some model_id →
  Main.model_cache s !! name = None →
  load_steps (os_path_join MODELS_DIR name) None true (Main.sys s)
    = (Raise KeyboardInterrupt, y1) →
  Main.download_and_cache_model name s
    = (Raise KeyboardInterrupt, Main.mkState (Main.model_cache s) y1).
Proof.
  intros Hg Hc Hl. rewrite download_and_cache_model_eq, Hc, Hg.
  unfold load_handles. by rewrite Hl.
Qed.

End Interrupts.

(** X5: the user's interrupt is not a load failure.  When the local-only
    attempt for a registry name is interrupted, no remote load is tried and
    nothing is cached; [download_and_cache_model] raises the
    [KeyboardInterrupt], [POST /load-model] does not turn it into a 500 and
    [POST /predict] does not turn it into an error response. *)
Theorem interrupt_passes_through (E : Engine) (name model_id : string)
    (s : Main.State E) (y1 : Sys E) (request : Main.ModelRequest) :
  dict_get name SUPPORTED_MODELS = Some model_id →
  Main.model_cache s !! name = None →
  load_steps (os_path_join MODELS_DIR name) None true (Main.sys s)
    = (Raise KeyboardInterrupt, y1) →
  Main.req_model_name request = name →
  let s1 := Main.mkState (Main.model_cache s) y1 in
  Main.download_and_cache_model name s = (Raise KeyboardInterrupt, s1)
  ∧ Main.load_model name s = (Raise KeyboardInterrupt, s1)
  ∧ Main.predict request s = (Raise KeyboardInterrupt, s1)
  ∧ ∃ cs, calls y1 = (calls (Main.sys s) ++ cs)%list
          ∧ Forall (λ k, is_remote_call k = false) cs.
Proof.
  intros Hg Hc Hl Hn s1.
  pose proof (download_and_cache_model_interrupted name model_id s y1 Hg Hc Hl)
    as Hd.
  assert (dict_contains name SUPPORTED_MODELS = true) as Hk
    by (apply dict_get_contains; eauto).
  split_and!.
  - done.
  - by rewrite load_model_eq, Hk, Hd.
  - rewrite predict_eq, predict_body_supported by (by rewrite Hn).
    by rewrite Hn, Hd.
  - destruct (load_steps_calls (os_path_join MODELS_DIR name) None true
                (Main.sys s)) as (cs & Hcs & _ & Hf).
    rewrite Hl in Hcs. exists cs. split; [done|].
    eapply Forall_impl; [exact Hf|]. apply load_call_matches_local.
Qed.

Lemma interrupt_passes_through_witness :
  let s := Main.initial (E:=mock_interrupted) Mock.fresh_online in
  let request := Main.mkRequest "Hello world" "bert-base-uncased" "feature-extraction" in
  Main.predict request s
  = (Raise KeyboardInterrupt,
     Main.mkState ∅
       (mkSys (E:=mock_interrupted) Mock.fresh_online
          [CallTokenizerFromPretrained "./models/bert-base-uncased" None true]))
  ∧ (Main.load_model "bert-base-uncased" s).1 = Raise KeyboardInterrupt.
Proof.
  intros s request.
  destruct (interrupt_passes_through mock_interrupted "bert-base-uncased"
              "bert-base-uncased" s
              (mkSys (E:=mock_interrupted) Mock.fresh_online
                 [CallTokenizerFromPretrained "./models/bert-base-uncased" None true])
              request)
    as (_ & Hl & Hp & _); try reflexivity.
  split; [exact Hp|]. rewrite Hl. reflexivity.
Defined.

(** ** More on [POST /predict] and [POST /load-model] *)

Section PredictMore.
Context {E : Engine}.
Implicit Types (s : Main.State E) (request : Main.ModelRequest) (name : string).

Lemma predict_state request s :
  (Main.predict request s).2 = (Main.predict_body request s).2.
Proof.
  rewrite predict_eq.
  destruct (Main.predict_body request s) as [[r|e] s']; [done|].
  destruct (isinstance_HTTPException e); [done|].
  by destruct (isinstance_Exception e).
Qed.

Lemma predict_body_echo request s r s' :
  Main.predict_body request s = (Ok r, s') →
  Main.model_name r = Main.req_model_name request
  ∧ Main.text r = Main.req_text request
  ∧ Main.task r = Main.req_task request.
Proof.
  destruct (dict_contains (Main.req_model_name request) SUPPORTED_MODELS) eqn:Hc.
  - rewrite predict_body_supported by done.
    destruct (Main.download_and_cache_model _ s) as [[data|e0] s1]; [|done].
    destruct (data !! "pipeline") as [h|]; [|done].
    destruct (bool_decide _).
    + destruct (Main.call_handle _ _ _) as [[value|e1] s2]; [|done].
      destruct (validate_embeddings value); [|done].
      by intros [= <- <-].
    + destruct (data !! "tokenizer") as [h'|]; [|done].
      destruct (Main.tokenize_handle _ _ _) as [[tk|e1] s2]; [|done].
      by intros [= <- <-].
  - unfold Main.predict_body, bind at 1. by rewrite Hc.
Qed.

Lemma lift_engine_call_calls {A} c (f : World E → outcome A * World E) s :
  calls (Main.sys (Main.lift (engine_call c f) s).2)
  = (calls (Main.sys s) ++ [c])%list.
Proof.
  unfold Main.lift, engine_call. by destruct (f (world (Main.sys s))).
Qed.

(** The calls of the [try] block after a load that returned a complete
    entry: the one call the task asks for. *)
Lemma predict_body_calls_loaded request s data s1 :
  dict_contains (Main.req_model_name request) SUPPORTED_MODELS = true →
  Main.download_and_cache_model (Main.req_model_name request) s = (Ok data, s1) →
  entry_complete data →
  calls (Main.sys (Main.predict_body request s).2)
  = (calls (Main.sys s1) ++ [task_call request])%list.
Proof.
  intros Hc Hd (t & m & p & Ht & _ & Hp).
  rewrite predict_body_supported by done. rewrite Hd, Hp, Ht. unfold task_call.
  destruct (bool_decide _).
  - pose proof (lift_engine_call_calls (CallPipelineRun (Main.req_text request))
                  (pipeline_call E p (Main.req_text request)) s1) as Hcalls.
    cbn [Main.call_handle].
    destruct (Main.lift _ s1) as [[value|e] s2]; [|done].
    by destruct (validate_embeddings value).
  - pose proof (lift_engine_call_calls (CallTokenize (Main.req_text request))
                  (tokenizer_tokenize E t (Main.req_text request)) s1) as Hcalls.
    cbn [Main.tokenize_handle].
    by destruct (Main.lift _ s1) as [[tk|e] s2].
Qed.

Lemma load_model_returns name s msg s1 :
  Main.load_model name s = (Ok msg, s1) →
  dict_contains name SUPPORTED_MODELS = true
  ∧ msg = "Model " ++ name ++ " loaded successfully"
  ∧ ∃ entry, Main.download_and_cache_model name s = (Ok entry, s1)
             ∧ Main.model_cache s1 !! name = Some entry.
Proof.
  rewrite load_model_eq.
  destruct (dict_contains name SUPPORTED_MODELS); [|done].
  destruct (Main.download_and_cache_model name s) as [[entry|e] s0] eqn:Hd.
  - intros [= <- <-]. split_and!; try done. exists entry. split; [done|].
    apply download_and_cache_model_returns in Hd as [-> _].
    apply lookup_insert_eq.
  - by destruct (isinstance_Exception e).
Qed.

End PredictMore.

(** X6: every response [POST /predict] returns, with embeddings, with
    features or with an error, carries the [model_name], the [text] and the
    [task] of the request. *)
Theorem predict_echoes_request (E : Engine) (request : Main.ModelRequest)
    (s s' : Main.State E) (r : Main.ModelResponse E) :
  Main.predict request s = (Ok r, s') →
  Main.model_name r = Main.req_model_name request
  ∧ Main.text r = Main.req_text request
  ∧ Main.task r = Main.req_task request.
Proof.
  rewrite predict_eq.
  destruct (Main.predict_body request s) as [[r0|e] s0] eqn:Hb.
  - intros [= <- <-]. by eapply predict_body_echo.
  - destruct (isinstance_HTTPException e); [done|].
    destruct (isinstance_Exception e); [|done].
    by intros [= <- <-].
Qed.

Lemma predict_echoes_request_witness :
  let request := Main.mkRequest "Hello world" "roberta-base" "feature-extraction" in
  let out := Main.predict request (Main.initial (E:=Mock.flaky) Mock.fresh_online) in
  (∃ r, out.1 = Ok r ∧ Main.error r = Some "Connection reset")
  ∧ ∀ r, out.1 = Ok r →
         Main.model_name r = "roberta-base" ∧ Main.text r = "Hello world"
         ∧ Main.task r = "feature-extraction".
Proof.
  intros request out. split; [eexists; split; reflexivity|].
  intros r Hr.
  apply (predict_echoes_request Mock.flaky request
           (Main.initial (E:=Mock.flaky) Mock.fresh_online) out.2 r).
  rewrite <- Hr. apply surjective_pairing.
Defined.

(** X7: the engine traffic of [POST /predict] for a registry name, in a state
    the process reaches: the calls of the load (at most six, none when the
    model is in the cache) and then, when the load returned, exactly one
    call: the pipeline on the text for the task ["feature-extraction"], the
    tokenizer on the text for any other task.  A request for a loaded model
    makes that one call and nothing else. *)
Theorem predict_traffic (E : Engine) (request : Main.ModelRequest)
    (s : Main.State E) :
  reachable s →
  dict_contains (Main.req_model_name request) SUPPORTED_MODELS = true →
  ∃ cs tail,
    calls (Main.sys (Main.predict request s).2)
    = (calls (Main.sys s) ++ cs ++ tail)%list
    ∧ (length cs ≤ 6)%nat
    ∧ Forall (λ k, is_load_call k = true) cs
    ∧ tail = match Main.download_and_cache_model (Main.req_model_name request) s with
             | (Ok _, _) => [task_call request]
             | (Raise _, _) => []
             end
    ∧ (is_Some (Main.model_cache s !! Main.req_model_name request) →
       cs = [] ∧ tail = [task_call request]).
Proof.
  intros Hs Hc.
  destruct (download_and_cache_model_calls (Main.req_model_name request) s)
    as (cs & Hcs & Hlen & Hload & Hnil).
  rewrite predict_state.
  destruct (Main.download_and_cache_model _ s) as [[data|e] s1] eqn:Hd;
    cbn [snd] in Hcs.
  - exists cs, [task_call request].
    rewrite (predict_body_calls_loaded request s data s1 Hc Hd), Hcs.
    + rewrite (assoc_L (++)). split_and!; try done. intros Hin. auto.
    + eapply download_and_cache_model_complete;
        eauto using reachable_cache_complete.
  - exists cs, []. rewrite predict_body_supported, Hd by done. cbn [snd].
    rewrite Hcs, (right_id_L [] (++)). split_and!; try done.
    intros [entry Hin].
    by rewrite (download_and_cache_model_hit _ _ entry) in Hd.
Qed.

Lemma predict_traffic_witness :
  let s := Main.serve
             [Main.PostPredict (Main.mkRequest "Hi" "albert-base-v1" "tokens")]
             (Main.initial (E:=Mock.engine) Mock.fresh_online) in
  let request := Main.mkRequest "Hello" "albert-base-v1" "feature-extraction" in
  calls (Main.sys s)
  = [ CallTokenizerFromPretrained "./models/albert-base-v1" None true;
      CallTokenizerFromPretrained "albert-base-v1" (Some "./models/albert-base-v1") false;
      CallModelFromPretrained "albert-base-v1" (Some "./models/albert-base-v1") false;
      CallPipeline "feature-extraction" (-1);
      CallTokenize "Hi" ]
  ∧ calls (Main.sys (Main.predict request s).2)
    = (calls (Main.sys s) ++ [CallPipelineRun "Hello"])%list.
Proof.
  intros s request. split; [reflexivity|].
  destruct (predict_traffic Mock.engine request s) as (cs & tail & Hc & _ & _ & _ & Hin).
  - eexists Mock.fresh_online, _. reflexivity.
  - reflexivity.
  - destruct Hin as [-> ->]; [eexists; reflexivity|]. exact Hc.
Defined.

(** X8: preloading works.  In a state the process reaches, when
    [POST /load-model/{name}] returns, its message names the model, the model
    is in the cache, and a [POST /predict] for that name then makes no load
    call: its one engine call is the one its task asks for, and the cache
    stays as it is. *)
Theorem load_model_then_predict (E : Engine) (name msg : string)
    (s s1 : Main.State E) (request : Main.ModelRequest) :
  reachable s →
  Main.load_model name s = (Ok msg, s1) →
  Main.req_model_name request = name →
  msg = "Model " ++ name ++ " loaded successfully"
  ∧ is_Some (Main.model_cache s1 !! name)
  ∧ calls (Main.sys (Main.predict request s1).2)
    = (calls (Main.sys s1) ++ [task_call request])%list
  ∧ Main.model_cache (Main.predict request s1).2 = Main.model_cache s1.
Proof.
  intros Hs Hl <-.
  assert (reachable s1) as Hs1.
  { replace s1 with (Main.handle (Main.PostLoadModel (Main.req_model_name request)) s)
      by (cbn; by rewrite Hl).
    by apply reachable_handle. }
  apply load_model_returns in Hl as (Hc & -> & entry & Hd & Hin).
  split_and!; [done|eauto| |].
  - rewrite predict_state.
    rewrite (predict_body_calls_loaded request s1 entry s1); [done|done| |].
    + by apply download_and_cache_model_hit.
    + by eapply (reachable_cache_complete s1).
  - rewrite predict_cache, Hc.
    by rewrite (download_and_cache_model_hit _ _ entry).
Qed.

Lemma load_model_then_predict_witness :
  let s := Main.initial (E:=Mock.engine) Mock.fresh_online in
  let s1 := (Main.load_model "bert-large-uncased" s).2 in
  let request := Main.mkRequest "Hello" "bert-large-uncased" "feature-extraction" in
  length (calls (Main.sys s1)) = 4
  ∧ calls (Main.sys (Main.predict request s1).2)
    = (calls (Main.sys s1) ++ [CallPipelineRun "Hello"])%list.
Proof.
  intros s s1 request. split; [reflexivity|].
  destruct (load_model_then_predict Mock.engine "bert-large-uncased"
              "Model bert-large-uncased loaded successfully" s s1 request)
    as (_ & _ & Hc & _).
  - exists Mock.fresh_online, []. reflexivity.
  - reflexivity.
  - reflexivity.
  - exact Hc.
Defined.

(** X9: the two endpoints report one and the same load failure differently.
    When the load of a registry name raises an [Exception] with message
    [msg], [POST /load-model/{name}] answers 500 with [msg] as detail, and
    [POST /predict] for that name returns (status 200) a response whose
    [error] is [msg], with no embeddings and no features; both leave the
    cache as it was. *)
Theorem load_failure_500_versus_200 (E : Engine) (name cls msg : string)
    (s s1 : Main.State E) (request : Main.ModelRequest) :
  dict_contains name SUPPORTED_MODELS = true →
  Main.req_model_name request = name →
  Main.download_and_cache_model name s = (Raise (PyException cls msg), s1) →
  Main.load_model name s = (Raise (HTTPException 500 msg), s1)
  ∧ Main.http_status (Main.load_model name s).1 = Some 500
  ∧ Main.predict request s
    = (Ok (Main.mkResponse name (Main.req_text request) (Main.req_task request)
             None None (Some msg)), s1)
  ∧ Main.http_status (Main.predict request s).1 = Some 200
  ∧ Main.model_cache s1 = Main.model_cache s.
Proof.
  intros Hc <- Hd.
  assert (Main.load_model (Main.req_model_name request) s
          = (Raise (HTTPException 500 msg), s1)) as Hl
    by (by rewrite load_model_eq, Hc, Hd).
  assert (Main.predict request s
          = (Ok (Main.mkResponse (Main.req_model_name request)
                   (Main.req_text request) (Main.req_task request)
                   None None (Some msg)), s1)) as Hp
    by (by rewrite predict_eq, predict_body_supported, Hd).
  rewrite Hl, Hp. split_and!; try done.
  by apply download_and_cache_model_raises in Hd as (_ & ? & _).
Qed.

Lemma load_failure_500_versus_200_witness :
  let s := Main.initial (E:=Mock.engine) Mock.fresh_offline in
  let request := Main.mkRequest "Hello" "roberta-base" "tokens" in
  (Main.load_model "roberta-base" s).1
  = Raise (HTTPException 500 "We couldn't connect to the hub")
  ∧ (Main.predict request s).1
    = Ok (Main.mkResponse "roberta-base" "Hello" "tokens" None None
            (Some "We couldn't connect to the hub")).
Proof.
  intros s request.
  destruct (load_failure_500_versus_200 Mock.engine "roberta-base" "OSError"
              "We couldn't connect to the hub" s
              (Main.download_and_cache_model "roberta-base" s).2 request)
    as (Hl & _ & Hp & _); try reflexivity.
  rewrite Hl, Hp. split; reflexivity.
Defined.

(** X10: what [POST /load-model/{name}] can answer.  When it returns, the
    name is in the registry and, afterwards, in the cache.  When it raises,
    the cache is as it was and the exception is a 500 or the user's
    interrupt: the endpoint never answers 400. *)
Theorem load_model_outcomes (E : Engine) (name : string) (s : Main.State E) :
  match Main.load_model name s with
  | (Ok msg, s1) =>
      dict_contains name SUPPORTED_MODELS = true
      ∧ is_Some (Main.model_cache s1 !! name)
      ∧ msg = "Model " ++ name ++ " loaded successfully"
  | (Raise e, s1) =>
      Main.model_cache s1 = Main.model_cache s
      ∧ (e = KeyboardInterrupt ∨ ∃ detail, e = HTTPException 500 detail)
  end
  ∧ Main.http_status (Main.load_model name s).1 ≠ Some 400.
Proof.
  assert (match Main.load_model name s with
          | (Ok msg, s1) =>
              dict_contains name SUPPORTED_MODELS = true
              ∧ is_Some (Main.model_cache s1 !! name)
              ∧ msg = "Model " ++ name ++ " loaded successfully"
          | (Raise e, s1) =>
              Main.model_cache s1 = Main.model_cache s
              ∧ (e = KeyboardInterrupt ∨ ∃ detail, e = HTTPException 500 detail)
          end) as H.
  { destruct (Main.load_model name s) as [[msg|e] s1] eqn:Hl.
    - apply load_model_returns in Hl as (? & ? & entry & _ & ?). eauto.
    - revert Hl. rewrite load_model_eq.
      destruct (dict_contains name SUPPORTED_MODELS);
        [|intros [= <- <-]; eauto].
      destruct (Main.download_and_cache_model name s) as [[entry|e0] s0] eqn:Hd;
        [done|].
      apply download_and_cache_model_raises in Hd as (Hx & Hc & _).
      destruct (engine_exn_cases e0 Hx) as [(cls & m & ->)| ->];
        cbn; intros [= <- <-]; eauto. }
  split; [done|].
  destruct (Main.load_model name s) as [[msg|e] s1]; [done|].
  destruct H as [_ [->|[d ->]]]; done.
Qed.

Lemma load_model_outcomes_witness :
  let s := Main.initial (E:=Mock.engine) Mock.fresh_offline in
  Main.http_status (Main.load_model "gpt2" s).1 = Some 500
  ∧ Main.http_status (Main.load_model "roberta-base" s).1 = Some 500
  ∧ Main.http_status (Main.load_model "gpt2" s).1 ≠ Some 400.
Proof.
  intros s. split; [reflexivity|]. split; [reflexivity|].
  exact (proj2 (load_model_outcomes Mock.engine "gpt2" s)).
Defined.

(** X11: a model is loaded by the first request that uses it.  When
    [POST /predict] returns a response without an error, the model of the
    request is a registry name and is in the cache afterwards. *)
Theorem predict_success_caches_model (E : Engine) (request : Main.ModelRequest)
    (s s' : Main.State E) (r : Main.ModelResponse E) :
  Main.predict request s = (Ok r, s') →
  Main.error r = None →
  Main.req_model_name request ∈ dict_keys SUPPORTED_MODELS
  ∧ is_Some (Main.model_cache s' !! Main.req_model_name request).
Proof.
  intros Hp Herr.
  destruct (dict_contains (Main.req_model_name request) SUPPORTED_MODELS) eqn:Hc;
    [|by rewrite predict_unsupported in Hp].
  split; [unfold dict_contains in Hc; by apply bool_decide_eq_true in Hc|].
  assert (Main.model_cache s' = Main.model_cache (Main.predict request s).2) as ->
    by (by rewrite Hp).
  rewrite predict_cache, Hc. revert Hp. rewrite predict_eq, predict_body_supported by done.
  destruct (Main.download_and_cache_model _ s) as [[data|e0] s1] eqn:Hd.
  - intros _. cbn [snd]. apply download_and_cache_model_returns in Hd as [-> _].
    rewrite lookup_insert_eq. eauto.
  - destruct (isinstance_HTTPException e0); [done|].
    destruct (isinstance_Exception e0); [|done].
    intros [= <- <-]. done.
Qed.

Lemma predict_success_caches_model_witness :
  let request := Main.mkRequest "Hey" "albert-base-v2" "feature-extraction" in
  let out := Main.predict request (Main.initial (E:=Mock.engine) Mock.fresh_online) in
  out.1 = Ok (Main.mkResponse (E:=Mock.engine) "albert-base-v2" "Hey" "feature-extraction"
                (Some [[1; 0]; [1; 0]; [1; 0]]%Z) None None)
  ∧ is_Some (Main.model_cache out.2 !! "albert-base-v2").
Proof.
  intros request out. split; [reflexivity|].
  apply (predict_success_caches_model Mock.engine request
           (Main.initial (E:=Mock.engine) Mock.fresh_online) out.2
           (Main.mkResponse (E:=Mock.engine) "albert-base-v2" "Hey" "feature-extraction"
              (Some [[1; 0]; [1; 0]; [1; 0]]%Z) None None));
    reflexivity.
Defined.

(** ** The [GET] endpoints *)

(** X12: the [GET] endpoints are safe: serving any sequence of [GET /],
    [GET /models] and [GET /health] requests leaves the whole state of the
    process, cache, engine and call log, as it was. *)
Theorem get_requests_change_nothing (E : Engine) (rs : list Main.Request)
    (s : Main.State E) :
  Forall (λ r, is_get r = true) rs → Main.serve rs s = s.
Proof.
  intros Hrs. induction Hrs as [|r rs Hr _ IH]; [done|].
  rewrite serve_cons.
  assert (Main.handle r s = s) as ->; [|done].
  destruct r; try done. cbn [Main.handle]. by rewrite health_check_eq.
Qed.

Lemma get_requests_change_nothing_witness :
  let s := Main.serve [Main.PostLoadModel "roberta-base"]
             (Main.initial (E:=Mock.engine) Mock.fresh_online) in
  Main.serve [Main.GetHealth; Main.GetModels; Main.GetRoot; Main.GetHealth] s = s.
Proof.
  intros s. apply (get_requests_change_nothing Mock.engine).
  repeat constructor.
Defined.

(** ** More on the bulk downloader *)

Section DownloaderMore.
Context {E : Engine}.
Implicit Types (s : DownloadModels.State E) (y : Sys E).









(** The names of the failures are names of the items, in their order. *)
Lemma failures_sublist items y :
  (DownloadModels.failures items y).*1 `sublist_of` items.*1.
Proof.
  revert y. induction items as [|[name id] rest IH]; intros y; [done|].
  cbn [DownloadModels.failures].
  destruct (load_steps _ _ _ _) as [[h|e] y']; cbn [fmap list_fmap fst].
  - by apply sublist_cons.
  - by apply sublist_skip.
Qed.

End DownloaderMore.



Lemma pair_eta_fst {A B} (p : A * B) (a : A) : p.1 = a → p = (a, p.2).
Proof. destruct p. cbn. by intros ->. Defined.

(** X14: in a run of the downloader a model fails at most once, and the
    counts of the summary add up.  When [download_all_models] returns, the
    models reported as failed bear names of the registry's items, in their
    order, so there are at most as many as items; the summary it printed
    last lists exactly them, and when there are any, the number of failures
    and the number of successes it prints add up to the number of items. *)
Theorem download_summary_counts_add_up (E : Engine)
    (registry : list (string * string)) (s s' : DownloadModels.State E) :
  DownloadModels.download_all_models_over registry s = (Ok (), s') →
  ∃ failed before succeeded,
    failed.*1 `sublist_of` registry.*1
    ∧ (length failed ≤ length registry)%nat
    ∧ (succeeded + length failed = length registry)%nat
    ∧ DownloadModels.stdout s'
      = (before
         ++ [DownloadModels.LRule]
         ++ match failed with
            | [] => [DownloadModels.LAllDownloaded]
            | _ :: _ =>
                [DownloadModels.LFailedCount (length failed)]
                ++ ((λ f, DownloadModels.LFailedItem f.1 f.2) <$> failed)
                ++ [DownloadModels.LSucceededCount succeeded]
            end
         ++ [DownloadModels.LStoredIn "./models";
             DownloadModels.LStartServer])%list.
Proof.
  intros Hrun. pose proof (download_all_models_over_spec registry s) as H.
  rewrite Hrun in H. destruct H as (s0 & _ & Hout).
  pose proof (failures_sublist registry (DownloadModels.sys s0)) as Hsub.
  pose proof (sublist_length _ _ Hsub) as Hlen. rewrite !length_fmap in Hlen.
  exists (DownloadModels.failures registry (DownloadModels.sys s0)),
    (DownloadModels.stdout s
     ++ [DownloadModels.LBanner (length registry)
           (cuda_is_available E (world (DownloadModels.sys s0)))]
     ++ DownloadModels.processing_lines (length registry) 1 registry)%list,
    (length registry
     - length (DownloadModels.failures registry (DownloadModels.sys s0))).
  split_and!; [done|done|lia|].
  rewrite Hout. unfold DownloadModels.summary.
  by rewrite <- !(assoc_L (++)).
Qed.

Lemma download_summary_counts_add_up_witness :
  let s := DownloadModels.initial (E:=Mock.flaky) Mock.fresh_online in
  let out := DownloadModels.download_all_models_over SUPPORTED_MODELS s in
  drop 8 (DownloadModels.stdout out.2)
  = [ DownloadModels.LFailedCount 1;
      DownloadModels.LFailedItem "roberta-base" "Connection reset";
      DownloadModels.LSucceededCount 5;
      DownloadModels.LStoredIn "./models";
      DownloadModels.LStartServer ]
  ∧ ∃ failed before succeeded,
      (succeeded + length failed = 6)%nat
      ∧ DownloadModels.stdout out.2
        = (before
           ++ [DownloadModels.LRule]
           ++ match failed with
              | [] => [DownloadModels.LAllDownloaded]
              | _ :: _ =>
                  [DownloadModels.LFailedCount (length failed)]
                  ++ ((λ f, DownloadModels.LFailedItem f.1 f.2) <$> failed)
                  ++ [DownloadModels.LSucceededCount succeeded]
              end
           ++ [DownloadModels.LStoredIn "./models";
               DownloadModels.LStartServer])%list.
Proof.
  intros s out. split; [reflexivity|].
  destruct (download_summary_counts_add_up Mock.flaky SUPPORTED_MODELS s out.2)
    as (failed & before & succeeded & _ & _ & Hsum & Hout).
  - apply (pair_eta_fst out). reflexivity.
  - exists failed, before, succeeded. split; [exact Hsum|exact Hout].
Defined.

(** ** The downloader and the service share the storage directories *)

Section SharedStorage.
Context {E : Engine}.
Implicit Types (y : Sys E).

(** When the tokenizer and the model load, the three steps make their three
    calls. *)
Lemma load_steps_three_calls p c l y t w1 m w2 :
  AutoTokenizer_from_pretrained E p c l (world y) = (Returned t, w1) →
  AutoModel_from_pretrained E p c l w1 = (Returned m, w2) →
  calls (load_steps p c l y).2
  = (calls y
     ++ [CallTokenizerFromPretrained p c l; CallModelFromPretrained p c l;
         CallPipeline "feature-extraction"
           (select_device (cuda_is_available E w2))])%list.
Proof.
  intros Ht Hm. unfold load_steps, bind, engine_call at 1. rewrite Ht.
  cbn [res_of_outcome]. unfold engine_call at 1; cbn [world calls]. rewrite Hm.
  cbn [res_of_outcome]. unfold torch_cuda_is_available, engine_call;
    cbn [world calls].
  destruct (pipeline E _ m t _ w2) as [[q|cls msg|] w3]; cbn;
    by rewrite <- !(assoc_L (++)).
Qed.

End SharedStorage.

(** X15: the downloader stores a model where the service looks for it.  When
    the engine keeps its storage contract and [download_model] has returned
    for a registry item, then in a service process that finds the world the
    downloader left, and has no cache entry for the name, the local-only
    loads of the tokenizer and of the model from the model's directory
    return, and [download_and_cache_model] begins with them and with the
    making of the pipeline. *)
Theorem downloaded_model_is_found_locally (E : Engine)
    (C : storage_contract (E:=E)) (name model_id : string)
    (s s1 : DownloadModels.State E) (h : gmap string (Handle E))
    (t : Main.State E) :
  dict_get name SUPPORTED_MODELS = Some model_id →
  DownloadModels.download_model name model_id s = (Ok h, s1) →
  world (Main.sys t) = world (DownloadModels.sys s1) →
  Main.model_cache t !! name = None →
  ∃ tok w1 m w2,
    AutoTokenizer_from_pretrained E ("./models/" ++ name) None true
      (world (Main.sys t)) = (Returned tok, w1)
    ∧ AutoModel_from_pretrained E ("./models/" ++ name) None true w1
      = (Returned m, w2)
    ∧ ∃ cs, calls (Main.sys (Main.download_and_cache_model name t).2)
            = (calls (Main.sys t)
               ++ [CallTokenizerFromPretrained ("./models/" ++ name) None true;
                   CallModelFromPretrained ("./models/" ++ name) None true;
                   CallPipeline "feature-extraction"
                     (select_device (cuda_is_available E w2))]
               ++ cs)%list.
Proof.
  intros Hg Hd Hw Hc. destruct (registry_entry name model_id Hg) as [Hdir _].
  rewrite download_model_eq in Hd.
  destruct (load_steps model_id _ false (DownloadModels.sys s))
    as [[[[t0 m0] p0]|e] y] eqn:Hl; [|done].
  injection Hd as _ <-. cbn [DownloadModels.sys] in Hw.
  destruct (remote_then_local C _ _ _ _ _ Hl) as (tok & w1 & m & w2 & Ht & Hm).
  rewrite <- Hw, Hdir in Ht. rewrite Hdir in Hm.
  exists tok, w1, m, w2. split; [done|]. split; [done|].
  pose proof (load_steps_three_calls _ None true (Main.sys t) _ _ _ _ Ht Hm) as H3.
  rewrite download_and_cache_model_eq, Hc, Hg. unfold load_handles.
  rewrite Hdir.
  destruct (load_steps ("./models/" ++ name) None true (Main.sys t))
    as [[[[t1 m1] p1]|e1] y1]; cbn [snd] in H3.
  - exists []. cbn [snd Main.sys]. by rewrite (right_id_L [] (++)).
  - destruct (isinstance_Exception e1).
    + destruct (load_steps_calls model_id (Some ("./models/" ++ name)) false y1)
        as (cs & Hcs & _).
      exists cs.
      destruct (load_steps model_id _ false y1) as [[[[t2 m2] p2]|e2] y2];
        cbn [snd Main.sys] in *; by rewrite Hcs, H3, (assoc_L (++)).
    + exists []. cbn [snd Main.sys]. by rewrite (right_id_L [] (++)).
Qed.

Lemma downloaded_model_is_found_locally_witness :
  let s := DownloadModels.initial (E:=Mock.engine) Mock.fresh_online in
  let d := DownloadModels.download_model "roberta-base" "roberta-base" s in
  let t := Main.initial (E:=Mock.engine) (world (DownloadModels.sys d.2)) in
  calls (Main.sys (Main.download_and_cache_model "roberta-base" t).2)
  = [ CallTokenizerFromPretrained "./models/roberta-base" None true;
      CallModelFromPretrained "./models/roberta-base" None true;
      CallPipeline "feature-extraction" (-1) ]
  ∧ ∃ tok w1,
      Mock.tokenizer_from_pretrained "./models/roberta-base" None true
        (world (Main.sys t)) = (Returned tok, w1).
Proof.
  intros s d t. split; [reflexivity|].
  destruct (downloaded_model_is_found_locally Mock.engine mock_storage_contract
              "roberta-base" "roberta-base" s d.2
              (DownloadModels.handles (E:=Mock.engine)
                 "roberta-base" "roberta-base" "roberta-base") t)
    as (tok & w1 & _ & _ & Ht & _).
  - reflexivity.
  - apply (pair_eta_fst d). reflexivity.
  - reflexivity.
  - reflexivity.
  - exists tok, w1. exact Ht.
Defined.

(** ** Startup *)

Section StartupProofs.
Context {E : Engine}.
Context (os_listdir : string → World E → outcome (list string)).
Implicit Types (s : Main.State E).

Lemma startup_ensure_models_directory s :
  Main.model_cache (Startup.ensure_models_directory s).2 = Main.model_cache s
  ∧ ∃ cs, calls (Main.sys (Startup.ensure_models_directory s).2)
          = (calls (Main.sys s) ++ cs)%list
          ∧ (cs = [] ∨ cs = [CallMakedirs MODELS_DIR])
          ∧ (os_path_exists E MODELS_DIR (world (Main.sys s)) = true → cs = []).
Proof.
  unfold Startup.ensure_models_directory, bind, Main.lift, path_exists.
  destruct (os_path_exists E MODELS_DIR _); cbn [negb].
  - split; [done|]. exists []. cbn. rewrite (right_id_L [] (++)). auto.
  - unfold engine_call.
    destruct (os_makedirs E MODELS_DIR _) as [[[]|cls msg|] w]; cbn;
      (split; [done|]); exists [CallMakedirs MODELS_DIR]; split_and!; auto; done.
Qed.

(** Looking for files changes nothing, and tells whether the directory
    holds any unless the listing raises. *)
Lemma has_files_eq model_name s :
  (Startup.has_files os_listdir (os_path_join MODELS_DIR model_name) s).2 = s
  ∧ ∀ found,
      (Startup.has_files os_listdir (os_path_join MODELS_DIR model_name) s).1
        = Ok found →
      found = Startup.holds_files os_listdir (world (Main.sys s)) model_name.
Proof.
  unfold Startup.has_files, Startup.holds_files, bind, Main.lift, path_exists,
    Startup.listdir.
  destruct s as [c y]; cbn [Main.sys Main.model_cache].
  destruct (os_path_exists E _ (world y)); cbn [andb Main.sys Main.model_cache].
  - destruct (os_listdir _ (world y)) as [[|x l]|cls msg|]; cbn;
      (split; [done|]); intros found [= <-]; done.
  - split; [done|]. by intros found [= <-].
Qed.

Lemma scan_eq names available s :
  (Startup.scan os_listdir names available s).2 = s
  ∧ ∀ result,
      (Startup.scan os_listdir names available s).1 = Ok result →
      result = (available
                ++ filter (λ name, Startup.holds_files os_listdir
                                     (world (Main.sys s)) name = true) names)%list.
Proof.
  revert available. induction names as [|name rest IH]; intros available.
  - cbn. split; [done|]. intros result [= <-]. by rewrite (right_id_L [] (++)).
  - cbn [Startup.scan]. unfold bind.
    destruct (has_files_eq name s) as [Hs Hfound].
    destruct (Startup.has_files os_listdir _ s) as [[found|e] s0];
      cbn [fst snd] in *; subst s0; [|done].
    specialize (Hfound found eq_refl).
    destruct (IH (if found then (available ++ [name])%list else available))
      as [IHs IHr].
    split; [done|]. intros result Hr. rewrite (IHr result Hr).
    rewrite filter_cons, <- Hfound. destruct found; [|done].
    rewrite decide_True by done. by rewrite <- (assoc_L (++)).
Qed.

End StartupProofs.

(** X16: starting the service loads no model.  The startup code of
    [lifespan] leaves the cache as it is, makes no engine call but at most
    one [makedirs] of [./models], and none when the directory exists; when it
    returns, the models it reports as available are the registry names, in
    registry order, whose directory exists and is not empty. *)
Theorem startup_loads_no_model (E : Engine)
    (os_listdir : string → World E → outcome (list string))
    (s : Main.State E) :
  let out := Startup.lifespan_startup os_listdir s in
  Main.model_cache out.2 = Main.model_cache s
  ∧ (∃ cs, calls (Main.sys out.2) = (calls (Main.sys s) ++ cs)%list
           ∧ (cs = [] ∨ cs = [CallMakedirs MODELS_DIR])
           ∧ (os_path_exists E MODELS_DIR (world (Main.sys s)) = true → cs = []))
  ∧ (∀ available,
        out.1 = Ok available →
        available
        = filter (λ name, Startup.holds_files os_listdir
                            (world (Main.sys out.2)) name = true)
            (dict_keys SUPPORTED_MODELS)
        ∧ available `sublist_of` dict_keys SUPPORTED_MODELS).
Proof.
  intros out. unfold out, Startup.lifespan_startup, bind.
  destruct (startup_ensure_models_directory s) as [Hc Hcalls].
  destruct (Startup.ensure_models_directory s) as [[[]|e] s0]; cbn [snd] in *;
    [|by split_and!].
  destruct (scan_eq os_listdir (dict_keys SUPPORTED_MODELS) [] s0) as [Hs Hr].
  rewrite Hs. split_and!; [done|done|].
  intros available Ha. rewrite (Hr available Ha). cbn [app].
  split; [done|]. apply sublist_filter.
Qed.

Lemma startup_loads_no_model_witness :
  let w := Mock.mkWorld ["./models/roberta-base"] ["./models/roberta-base"]
             true false ["./models"; "./models/roberta-base"; "./models/roberta-large"] in
  let s := Main.initial (E:=Mock.engine) w in
  let out := Startup.lifespan_startup (E:=Mock.engine) mock_listdir s in
  out.1 = Ok ["roberta-base"]
  ∧ Main.model_cache out.2 = ∅
  ∧ calls (Main.sys out.2) = []
  ∧ (Startup.lifespan_startup (E:=Mock.engine) mock_listdir
       (Main.initial (E:=Mock.engine) Mock.fresh_online)).1 = Ok [].
Proof.
  intros w s out.
  destruct (startup_loads_no_model Mock.engine mock_listdir s) as (Hc & _ & _).
  split; [reflexivity|]. split; [exact Hc|]. split; reflexivity.
Defined.
